(** * Book management service: validation and resource lifecycle

    A shallow embedding of [src/app.py]: the payload validator
    [validate_book_data] and the four write/read handlers [BookList.post],
    [BookResource.get], [BookResource.put] and [BookResource.delete], over a
    model of the SQLAlchemy session they call.

    Modelling choices.
    - A decoded JSON payload is a [pyval]; a Python [str] is a [string] whose
      characters are the code points 0..255.
    - A float is the binary rational [m * 2^e] it denotes, or an infinity, or
      NaN.
    - Python exceptions are values of [exn]; code that may raise lives in
      [result], handlers in the state-and-exception monad [M].
    - [datetime.now().year], [datetime.utcnow()] and the interpreter's limit on
      the digits of an integer literal are inputs, gathered in [env].
    - The store keeps the attribute values the handlers assign, as Python
      objects do, and a query compares column values structurally; what the
      storage engine does with column types and lengths is outside the
      source, and shows only as a round trip that may fail.
    - The round trips to the store are the queries and the commit that the
      source makes; a commit that raises persists nothing, and the attribute
      reads that follow a commit are reads of the object at hand. *)

From Stdlib Require Import ZArith List String Ascii Bool Lia DecimalString.
Import ListNotations.
Open Scope string_scope.
Open Scope list_scope.
Open Scope Z_scope.

(** ** Python values and exceptions *)

Inductive pyfloat : Type :=
| Finite (m e : Z)            (* the number m * 2^e *)
| Infinite (negative : bool)
| NaN.

#[local] Unset Elimination Schemes.
Inductive pyval : Type :=
| PNone
| PBool (b : bool)
| PInt (z : Z)
| PFloat (f : pyfloat)
| PStr (s : string)
| PList (l : list pyval)
| PDict (d : list (string * pyval)).
#[local] Set Elimination Schemes.

Inductive exn : Type :=
| AttributeError
| TypeError
| ValueError
| OverflowError
| KeyError
| DatabaseError.

Inductive result (A : Type) : Type :=
| Ok (a : A)
| Raise (x : exn).

Arguments Ok {A} a.
Arguments Raise {A} x.

Definition rbind {A B : Type} (r : result A) (k : A -> result B) : result B :=
  match r with
  | Ok a => k a
  | Raise x => Raise x
  end.

Declare Scope result_scope.
Delimit Scope result_scope with result.
Notation "x <- r ;; k" := (rbind r (fun x => k))
  (at level 100, r at next level, right associativity) : result_scope.

(** A naive [datetime]. *)
Record datetime : Type := mkDatetime {
  dt_year : nat;
  dt_month : nat;
  dt_day : nat;
  dt_hour : nat;
  dt_minute : nat;
  dt_second : nat;
  dt_microsecond : nat;
}.

(** The clock readings and interpreter settings a request depends on. *)
Record env : Type := mkEnv {
  current_year : Z;          (* datetime.now().year *)
  utcnow : datetime;         (* datetime.utcnow(), the default of created_at *)
  int_max_str_digits : nat;  (* sys.get_int_max_str_digits(); 0 means no limit *)
}.

(** *** Truth value, [==] on the store's side, dict access *)

Definition float_is_zero (f : pyfloat) : bool :=
  match f with
  | Finite m _ => m =? 0
  | _ => false
  end.

Definition truthy (v : pyval) : bool :=
  match v with
  | PNone => false
  | PBool b => b
  | PInt z => negb (z =? 0)
  | PFloat f => negb (float_is_zero f)
  | PStr s => negb (String.length s =? 0)%nat
  | PList l => negb (List.length l =? 0)%nat
  | PDict d => negb (List.length d =? 0)%nat
  end.

Definition is_none (v : pyval) : bool :=
  match v with
  | PNone => true
  | _ => false
  end.

Definition float_eqb (f g : pyfloat) : bool :=
  match f, g with
  | Finite m e, Finite m' e' => (m =? m') && (e =? e')
  | Infinite b, Infinite b' => Bool.eqb b b'
  | NaN, NaN => true
  | _, _ => false
  end.

(** Structural comparison of two values, used where a query filters rows on
    a column value. *)
Fixpoint pyval_eqb (v w : pyval) {struct v} : bool :=
  match v, w with
  | PNone, PNone => true
  | PBool b, PBool b' => Bool.eqb b b'
  | PInt z, PInt z' => z =? z'
  | PFloat f, PFloat f' => float_eqb f f'
  | PStr s, PStr s' => String.eqb s s'
  | PList l, PList l' =>
      (fix list_eqb (l l' : list pyval) {struct l} : bool :=
         match l, l' with
         | [], [] => true
         | x :: t, x' :: t' => pyval_eqb x x' && list_eqb t t'
         | _, _ => false
         end) l l'
  | PDict d, PDict d' =>
      (fix dict_eqb (d d' : list (string * pyval)) {struct d} : bool :=
         match d, d' with
         | [], [] => true
         | (k, x) :: t, (k', x') :: t' =>
             String.eqb k k' && pyval_eqb x x' && dict_eqb t t'
         | _, _ => false
         end) d d'
  | _, _ => false
  end.

(** A dict is the list of its items, each key once; lookup takes the first
    item of a key. *)
Fixpoint assoc (k : string) (d : list (string * pyval)) : option pyval :=
  match d with
  | [] => None
  | (k', v) :: t => if String.eqb k k' then Some v else assoc k t
  end.

(** [data.get(k, default)]: only a dict has the method. *)
Definition dict_get (data : pyval) (k : string) (default : pyval) : result pyval :=
  match data with
  | PDict d => Ok (match assoc k d with Some v => v | None => default end)
  | _ => Raise AttributeError
  end.

(** [data[k]] with a string key. *)
Definition getitem (data : pyval) (k : string) : result pyval :=
  match data with
  | PDict d => match assoc k d with Some v => Ok v | None => Raise KeyError end
  | _ => Raise TypeError
  end.

Fixpoint prefixb (p s : string) : bool :=
  match p, s with
  | EmptyString, _ => true
  | String a p', String b s' => Ascii.eqb a b && prefixb p' s'
  | String _ _, EmptyString => false
  end.

Fixpoint substringb (p s : string) : bool :=
  prefixb p s ||
  match s with
  | EmptyString => false
  | String _ s' => substringb p s'
  end.

(** [k in data] for a string [k]: key of a dict, element of a list,
    substring of a string; the other values are not iterable. *)
Definition py_contains (k : string) (data : pyval) : result bool :=
  match data with
  | PDict d => Ok (match assoc k d with Some _ => true | None => false end)
  | PList l => Ok (existsb (pyval_eqb (PStr k)) l)
  | PStr s => Ok (substringb k s)
  | _ => Raise TypeError
  end.

(** *** Strings: [strip], [int], decimal printing *)

(** [str.isspace] on the code points below 256. *)
Definition is_space (c : ascii) : bool :=
  let n := nat_of_ascii c in
  ((9 <=? n) && (n <=? 13) || (28 <=? n) && (n <=? 32) || (n =? 133) || (n =? 160))%nat.

Fixpoint lstrip (cs : list ascii) : list ascii :=
  match cs with
  | c :: t => if is_space c then lstrip t else cs
  | [] => []
  end.

Definition strip_chars (cs : list ascii) : list ascii :=
  rev (lstrip (rev (lstrip cs))).

Definition strip (s : string) : string :=
  string_of_list_ascii (strip_chars (list_ascii_of_string s)).

(** [v.strip()]: only a string has the method. *)
Definition str_strip (v : pyval) : result string :=
  match v with
  | PStr s => Ok (strip s)
  | _ => Raise AttributeError
  end.

Definition digit_of (c : ascii) : option Z :=
  let n := nat_of_ascii c in
  if ((48 <=? n) && (n <=? 57))%nat then Some (Z.of_nat n - 48) else None.

(** The digits of a decimal literal: at least one digit, single underscores
    only between digits.  Returns the value and the number of digits. *)
Fixpoint parse_digits (acc : Z) (count : nat) (after_digit : bool)
                      (cs : list ascii) : option (Z * nat) :=
  match cs with
  | [] => if after_digit then Some (acc, count) else None
  | c :: t =>
      match digit_of c with
      | Some d => parse_digits (10 * acc + d) (S count) true t
      | None =>
          if Ascii.eqb c "_"%char && after_digit
          then parse_digits acc count false t
          else None
      end
  end.

(** [int(s)] for a string, base 10. *)
Definition int_of_string (e : env) (s : string) : result Z :=
  let cs := strip_chars (list_ascii_of_string s) in
  let (negative, body) :=
    match cs with
    | c :: t => if Ascii.eqb c "-"%char then (true, t)
                else if Ascii.eqb c "+"%char then (false, t)
                else (false, cs)
    | [] => (false, cs)
    end in
  match parse_digits 0 0 false body with
  | Some (n, count) =>
      if ((0 <? int_max_str_digits e) && (int_max_str_digits e <? count))%nat
      then Raise ValueError
      else Ok (if negative then - n else n)
  | None => Raise ValueError
  end.

(** [int(f)] for a float: truncation toward zero. *)
Definition int_of_float (f : pyfloat) : result Z :=
  match f with
  | Finite m e => Ok (if 0 <=? e then m * 2 ^ e else Z.quot m (2 ^ (- e)))
  | Infinite _ => Raise OverflowError
  | NaN => Raise ValueError
  end.

(** [int(v)]. *)
Definition py_int (e : env) (v : pyval) : result Z :=
  match v with
  | PInt z => Ok z
  | PBool b => Ok (if b then 1 else 0)
  | PFloat f => int_of_float f
  | PStr s => int_of_string e s
  | PNone | PList _ | PDict _ => Raise TypeError
  end.

(** [str(z)] for an integer, as an f-string prints it. *)
Definition str_of_int (z : Z) : string :=
  NilZero.string_of_int (Z.to_int z).

(** ** The validator (src/app.py, lines 84-110) *)

Definition msg_title : string := "Title is required".
Definition msg_author : string := "Author is required".
Definition msg_year_required : string := "Year is required".
Definition msg_year_integer : string := "Year must be a valid integer".
Definition msg_year_range (e : env) : string :=
  ("Year must be between 0 and " ++ str_of_int (current_year e))%string.
Definition msg_isbn : string := "ISBN is required".

(** [not partial or k in data] *)
Definition field_checked (k : string) (data : pyval) (partial : bool) : result bool :=
  if negb partial then Ok true else py_contains k data.

Open Scope result_scope.

(** Lines 87-89. *)
Definition check_title (data : pyval) (partial : bool) (errors : list string)
  : result (list string) :=
  checked <- field_checked "title" data partial ;;
  if checked then
    t <- dict_get data "title" PNone ;;
    missing <- (if negb (truthy t) then Ok true
                else t' <- dict_get data "title" (PStr "") ;;
                     s <- str_strip t' ;;
                     Ok (String.length s =? 0)%nat) ;;
    Ok (if missing then errors ++ [msg_title] else errors)
  else Ok errors.

(** Lines 91-93. *)
Definition check_author (data : pyval) (partial : bool) (errors : list string)
  : result (list string) :=
  checked <- field_checked "author" data partial ;;
  if checked then
    a <- dict_get data "author" PNone ;;
    missing <- (if negb (truthy a) then Ok true
                else a' <- dict_get data "author" (PStr "") ;;
                     s <- str_strip a' ;;
                     Ok (String.length s =? 0)%nat) ;;
    Ok (if missing then errors ++ [msg_author] else errors)
  else Ok errors.

(** Lines 95-104.  The [try] catches [ValueError] and [TypeError] only. *)
Definition check_year (e : env) (data : pyval) (partial : bool) (errors : list string)
  : result (list string) :=
  checked <- field_checked "year" data partial ;;
  if checked then
    y <- dict_get data "year" PNone ;;
    if negb (is_none y) then
      match (v <- getitem data "year" ;;
             year <- py_int e v ;;
             Ok (if (year <? 0) || (year >? current_year e)
                 then errors ++ [msg_year_range e] else errors)) with
      | Raise ValueError | Raise TypeError => Ok (errors ++ [msg_year_integer])
      | r => r
      end
    else if negb partial then Ok (errors ++ [msg_year_required])
    else Ok errors
  else Ok errors.

(** Lines 106-108. *)
Definition check_isbn (data : pyval) (partial : bool) (errors : list string)
  : result (list string) :=
  checked <- field_checked "isbn" data partial ;;
  if checked then
    i <- dict_get data "isbn" PNone ;;
    Ok (if negb (truthy i) && negb partial then errors ++ [msg_isbn] else errors)
  else Ok errors.

Definition validate_book_data (e : env) (data : pyval) (partial : bool)
  : result (list string) :=
  errors <- check_title data partial [] ;;
  errors <- check_author data partial errors ;;
  errors <- check_year e data partial errors ;;
  errors <- check_isbn data partial errors ;;
  Ok errors.

Close Scope result_scope.

(** ** The Book model (lines 65-81) *)

Fixpoint zeros (n : nat) : string :=
  match n with
  | O => ""
  | S n' => String "0" (zeros n')
  end.

(** [n] in decimal, left-padded with zeros to [width] characters. *)
Definition pad (width n : nat) : string :=
  let s := NilZero.string_of_uint (Nat.to_uint n) in
  (zeros (width - String.length s) ++ s)%string.

(** [datetime.isoformat()] of a naive datetime. *)
Definition isoformat (t : datetime) : string :=
  (pad 4 (dt_year t) ++ "-" ++ pad 2 (dt_month t) ++ "-" ++ pad 2 (dt_day t) ++ "T"
   ++ pad 2 (dt_hour t) ++ ":" ++ pad 2 (dt_minute t) ++ ":" ++ pad 2 (dt_second t)
   ++ (if (dt_microsecond t =? 0)%nat then "" else "." ++ pad 6 (dt_microsecond t)))%string.

Module Book.

Record t : Type := mk {
  id : Z;
  title : pyval;
  author : pyval;
  year : pyval;
  isbn : pyval;
  created_at : datetime;
}.

Definition to_dict (self : t) : pyval :=
  PDict [("id", PInt (id self));
         ("title", title self);
         ("author", author self);
         ("year", year self);
         ("isbn", isbn self);
         ("created_at", PStr (isoformat (created_at self)))].

Definition set_title (self : t) (v : pyval) : t :=
  mk (id self) v (author self) (year self) (isbn self) (created_at self).
Definition set_author (self : t) (v : pyval) : t :=
  mk (id self) (title self) v (year self) (isbn self) (created_at self).
Definition set_year (self : t) (v : pyval) : t :=
  mk (id self) (title self) (author self) v (isbn self) (created_at self).
Definition set_isbn (self : t) (v : pyval) : t :=
  mk (id self) (title self) (author self) (year self) v (created_at self).

End Book.

(** ** The database session

    [committed] is the persisted table.  [session] is the table as the
    current session sees it: the persisted rows with the session's pending
    changes applied.  [faults] scripts the health of the store: every round
    trip to the database consumes its head, and [true] makes that round trip
    raise; the empty script is a healthy store. *)

Record table : Type := mkTable {
  rows : list Book.t;
  next_id : Z;       (* the next value of the primary-key sequence *)
}.

Record db : Type := mkDb {
  committed : table;
  session : table;
  faults : list bool;
}.

Definition M (A : Type) : Type := db -> result A * db.

Definition ret {A : Type} (a : A) : M A := fun d => (Ok a, d).

Definition bind {A B : Type} (m : M A) (k : A -> M B) : M B :=
  fun d =>
    match m d with
    | (Ok a, d') => k a d'
    | (Raise x, d') => (Raise x, d')
    end.

Definition lift {A : Type} (r : result A) : M A := fun d => (r, d).

(** [try: m except Exception: h] *)
Definition try_except {A : Type} (m : M A) (h : M A) : M A :=
  fun d =>
    match m d with
    | (Ok a, d') => (Ok a, d')
    | (Raise _, d') => h d'
    end.

Declare Scope monad_scope.
Delimit Scope monad_scope with monad.
Notation "x <- m ;; k" := (bind m (fun x => k))
  (at level 100, m at next level, right associativity) : monad_scope.
Notation "m ;; k" := (bind m (fun _ => k))
  (at level 100, right associativity) : monad_scope.

Open Scope monad_scope.

(** One round trip to the database. *)
Definition roundtrip : M unit :=
  fun d =>
    match faults d with
    | [] => (Ok tt, d)
    | failed :: script =>
        (if failed then Raise DatabaseError else Ok tt,
         mkDb (committed d) (session d) script)
    end.

(** [Book.query.filter(p).first()] *)
Definition query_first (p : Book.t -> bool) : M (option Book.t) :=
  roundtrip ;;
  fun d => (Ok (find p (rows (session d))), d).

(** [Book.query.get(book_id)] *)
Definition query_get (book_id : Z) : M (option Book.t) :=
  query_first (fun b => Book.id b =? book_id).

(** [Book.query.all()] *)
Definition query_all : M (list Book.t) :=
  roundtrip ;;
  fun d => (Ok (rows (session d)), d).

(** [book = Book(title=.., author=.., year=.., isbn=..); db.session.add(book)]:
    the new row takes the next primary key and the default [created_at]. *)
Definition session_add (e : env) (title author year isbn : pyval) : M Book.t :=
  fun d =>
    let book := Book.mk (next_id (session d)) title author year isbn (utcnow e) in
    (Ok book,
     mkDb (committed d)
          (mkTable (rows (session d) ++ [book]) (next_id (session d) + 1))
          (faults d)).

(** An attribute assignment on a persistent object: the session's row with
    that primary key now holds the new state. *)
Definition session_set (book : Book.t) : M unit :=
  fun d =>
    (Ok tt,
     mkDb (committed d)
          (mkTable (map (fun r => if Book.id r =? Book.id book then book else r)
                        (rows (session d)))
                   (next_id (session d)))
          (faults d)).

(** [db.session.delete(book)] *)
Definition session_delete (book : Book.t) : M unit :=
  fun d =>
    (Ok tt,
     mkDb (committed d)
          (mkTable (filter (fun r => negb (Book.id r =? Book.id book))
                           (rows (session d)))
                   (next_id (session d)))
          (faults d)).

(** [db.session.commit()]: one round trip; when it succeeds the session's
    table becomes the persisted one, when it raises nothing is persisted. *)
Definition session_commit : M unit :=
  roundtrip ;;
  fun d => (Ok tt, mkDb (session d) (session d) (faults d)).

(** [db.session.rollback()]: the pending changes are dropped. *)
Definition session_rollback : M unit :=
  fun d => (Ok tt, mkDb (committed d) (committed d) (faults d)).

(** ** The handlers *)

(** A response is the pair [body, status] the handler returns. *)
Definition response : Type := pyval * Z.

Definition error_body (msg : string) : pyval := PDict [("error", PStr msg)].

Definition nonempty {A : Type} (l : list A) : bool :=
  match l with
  | [] => false
  | _ => true
  end.

(** The [except Exception] arm shared by the write handlers. *)
Definition internal_server_error : M response :=
  session_rollback ;;
  ret (error_body "Internal server error", 500).

Module BookList.

(** Lines 126-137. *)
Definition get : M response :=
  try_except
    (books <- query_all ;;
     ret (PDict [("books", PList (map Book.to_dict books));
                 ("total", PInt (Z.of_nat (List.length books)))], 200))
    (ret (error_body "Internal server error", 500)).

(** Lines 145-182; [data] is what [request.get_json()] returned. *)
Definition post (e : env) (data : pyval) : M response :=
  try_except
    (if negb (truthy data) then ret (error_body "No JSON data provided", 400)
     else
       errors <- lift (validate_book_data e data false) ;;
       if nonempty errors then ret (PDict [("errors", PList (map PStr errors))], 400)
       else
         i <- lift (getitem data "isbn") ;;
         existing <- query_first (fun b => pyval_eqb (Book.isbn b) i) ;;
         match existing with
         | Some _ => ret (error_body "Book with this ISBN already exists", 409)
         | None =>
             t <- lift (getitem data "title") ;;
             a <- lift (getitem data "author") ;;
             y <- lift (getitem data "year") ;;
             i <- lift (getitem data "isbn") ;;
             book <- session_add e t a y i ;;
             session_commit ;;
             ret (PDict [("message", PStr "Book created successfully");
                         ("book", Book.to_dict book)], 201)
         end)
    internal_server_error.

End BookList.

Module BookResource.

(** Lines 192-204. *)
Definition get (book_id : Z) : M response :=
  try_except
    (found <- query_get book_id ;;
     match found with
     | None => ret (error_body "Book not found", 404)
     | Some book => ret (PDict [("book", Book.to_dict book)], 200)
     end)
    (ret (error_body "Internal server error", 500)).

(** Lines 212-255. *)
Definition put (e : env) (book_id : Z) (data : pyval) : M response :=
  try_except
    (if negb (truthy data) then ret (error_body "No JSON data provided", 400)
     else
       found <- query_get book_id ;;
       match found with
       | None => ret (error_body "Book not found", 404)
       | Some book =>
           errors <- lift (validate_book_data e data false) ;;
           if nonempty errors
           then ret (PDict [("errors", PList (map PStr errors))], 400)
           else
             i <- lift (getitem data "isbn") ;;
             existing_book <-
               query_first (fun b => pyval_eqb (Book.isbn b) i
                                     && negb (Book.id b =? book_id)) ;;
             match existing_book with
             | Some _ =>
                 ret (error_body "Another book with this ISBN already exists", 409)
             | None =>
                 t <- lift (getitem data "title") ;;
                 let book := Book.set_title book t in
                 session_set book ;;
                 a <- lift (getitem data "author") ;;
                 let book := Book.set_author book a in
                 session_set book ;;
                 y <- lift (getitem data "year") ;;
                 let book := Book.set_year book y in
                 session_set book ;;
                 i <- lift (getitem data "isbn") ;;
                 let book := Book.set_isbn book i in
                 session_set book ;;
                 session_commit ;;
                 ret (PDict [("message", PStr "Book updated successfully");
                             ("book", Book.to_dict book)], 200)
             end
       end)
    internal_server_error.

(** Lines 260-277. *)
Definition delete (book_id : Z) : M response :=
  try_except
    (found <- query_get book_id ;;
     match found with
     | None => ret (error_body "Book not found", 404)
     | Some book =>
         session_delete book ;;
         session_commit ;;
         ret (PDict [("message", PStr "Book deleted successfully")], 200)
     end)
    internal_server_error.

End BookResource.

(** [Book.query.limit(n).all()] *)
Definition query_limit_all (n : nat) : M (list Book.t) :=
  roundtrip ;;
  fun d => (Ok (firstn n (rows (session d))), d).

(** Lines 281-288. *)
Definition health_check : M response :=
  try_except
    (query_limit_all 1 ;;
     ret (PDict [("status", PStr "healthy"); ("database", PStr "connected")], 200))
    (ret (PDict [("status", PStr "unhealthy"); ("database", PStr "disconnected")], 500)).

Close Scope monad_scope.

(** ** Vocabulary of the statements *)

(** [data.get(k)] on the items of a dict. *)
Definition field (kvs : list (string * pyval)) (k : string) : pyval :=
  match assoc k kvs with
  | Some v => v
  | None => PNone
  end.

Definition is_str (v : pyval) : bool :=
  match v with
  | PStr _ => true
  | _ => false
  end.

(** The values on which the text rule of title and author returns: the
    false ones, which never reach [.strip()], and the strings. *)
Definition strippable (v : pyval) : bool := negb (truthy v) || is_str v.

(** A string with a character that is not white space. *)
Definition nonblank (v : pyval) : bool :=
  match v with
  | PStr s => negb (String.length (strip s) =? 0)%nat
  | _ => false
  end.

Definition is_infinite (v : pyval) : bool :=
  match v with
  | PFloat (Infinite _) => true
  | _ => false
  end.


(** The messages of a validation failure come in the order of the fields. *)
Definition in_field_order (e : env) (errors : list string) : Prop :=
  exists te ae ye ie,
    errors = te ++ ae ++ ye ++ ie /\
    (te = [] \/ te = [msg_title]) /\
    (ae = [] \/ ae = [msg_author]) /\
    (ye = [] \/ ye = [msg_year_required] \/ ye = [msg_year_integer]
     \/ ye = [msg_year_range e]) /\
    (ie = [] \/ ie = [msg_isbn]).

Definition no_year_error (e : env) (errors : list string) : Prop :=
  ~ In msg_year_required errors /\ ~ In msg_year_integer errors
  /\ ~ In (msg_year_range e) errors.

(** The state between two requests: no pending change, primary keys unique
    and below the sequence, at most one row per isbn. *)
Record wf (d : db) : Prop := mkWf {
  wf_clean : session d = committed d;
  wf_below : forall b, In b (rows (committed d)) -> Book.id b < next_id (committed d);
  wf_keys : NoDup (map Book.id (rows (committed d)));
  wf_isbn : forall b b', In b (rows (committed d)) -> In b' (rows (committed d)) ->
                         Book.isbn b = Book.isbn b' -> b = b';
}.


Definition count_isbn (i : pyval) (tb : table) : nat :=
  List.length (filter (fun b => pyval_eqb (Book.isbn b) i) (rows tb)).

(** The state after [db.session.rollback()]. *)
Definition rolled_back (d : db) : db :=
  mkDb (committed d) (committed d) (faults d).


Definition validation_failed (errors : list string) : response :=
  (PDict [("errors", PList (map PStr errors))], 400).

Definition internal_error : response :=
  (error_body "Internal server error", 500).

(** *** The field rules as the validator's contract words them

    Each rule on its own: the messages it contributes for the value [v] that
    [data.get(k)] yields. *)

(** Title and author: the message when the field is absent, empty or white
    space only. *)
Definition text_errors (msg : string) (v : pyval) : list string :=
  if truthy v && nonblank v then [] else [msg].

(** Year: required; when present it must convert to an integer of the
    range. *)
Definition year_errors (e : env) (v : pyval) : result (list string) :=
  if is_none v then Ok [msg_year_required]
  else match py_int e v with
       | Ok year => Ok (if (0 <=? year) && (year <=? current_year e)
                        then [] else [msg_year_range e])
       | Raise ValueError | Raise TypeError => Ok [msg_year_integer]
       | Raise x => Raise x
       end.

(** Isbn: presence only. *)
Definition isbn_errors (v : pyval) : list string :=
  if truthy v then [] else [msg_isbn].

(** *** Outcomes of the handlers *)

(** The row that a create of the payload [kvs] adds in state [d], and the
    state once it is persisted. *)
Definition created (e : env) (kvs : list (string * pyval)) (d : db) : Book.t :=
  Book.mk (next_id (session d)) (field kvs "title") (field kvs "author")
          (field kvs "year") (field kvs "isbn") (utcnow e).



(** *** Requests and reachable states *)

Inductive request : Type :=
| Create (e : env) (data : pyval)
| Read (book_id : Z)
| ReadAll
| Update (e : env) (book_id : Z) (data : pyval)
| Delete (book_id : Z).

Definition handle (r : request) : M response :=
  match r with
  | Create e data => BookList.post e data
  | Read book_id => BookResource.get book_id
  | ReadAll => BookList.get
  | Update e book_id data => BookResource.put e book_id data
  | Delete book_id => BookResource.delete book_id
  end.

(** The states the service can be in between two requests, starting from
    an empty table, whatever the health of the store. *)
Inductive reachable : db -> Prop :=
| reach_empty (n : Z) (script : list bool) :
    reachable (mkDb (mkTable [] n) (mkTable [] n) script)
| reach_handle (d : db) (r : request) :
    reachable d -> reachable (snd (handle r d))
| reach_script (d : db) (script : list bool) :
    reachable d -> reachable (mkDb (committed d) (session d) script).

Definition table_ok (tb : table) : Prop :=
  (forall b, In b (rows tb) -> Book.id b < next_id tb) /\
  NoDup (map Book.id (rows tb)) /\
  (forall b b', In b (rows tb) -> In b' (rows tb) ->
                Book.isbn b = Book.isbn b' -> b = b').

(** *** Sample inputs *)

Definition env0 : env := mkEnv 2026 (mkDatetime 2026 11 3 9 5 0 0) 4300.

Definition empty_db : db := mkDb (mkTable [] 1) (mkTable [] 1) [].

Definition dune : pyval :=
  PDict [("title", PStr "Dune"); ("author", PStr "Herbert");
         ("year", PInt 1965); ("isbn", PStr "9780441013593")].

Definition emma : pyval :=
  PDict [("title", PStr "Emma"); ("author", PStr "Austen");
         ("year", PInt 1815); ("isbn", PStr "9780141439587")].

Definition dune_row : Book.t :=
  Book.mk 1 (PStr "Dune") (PStr "Herbert") (PInt 1965) (PStr "9780441013593")
          (utcnow env0).

Definition emma_row : Book.t :=
  Book.mk 2 (PStr "Emma") (PStr "Austen") (PInt 1815) (PStr "9780141439587")
          (utcnow env0).

Definition one_book : db :=
  mkDb (mkTable [dune_row] 2) (mkTable [dune_row] 2) [].

Definition two_books : db :=
  mkDb (mkTable [dune_row; emma_row] 3) (mkTable [dune_row; emma_row] 3) [].

(** Two healthy round trips, then one that fails. *)
Definition two_books_failing_commit : db :=
  mkDb (mkTable [dune_row; emma_row] 3) (mkTable [dune_row; emma_row] 3)
       [false; false; true].


(** *** Vocabulary of the further properties *)

(** [k in data] on the items of a dict. *)
Definition has_key (kvs : list (string * pyval)) (k : string) : bool :=
  match assoc k kvs with
  | Some _ => true
  | None => false
  end.

(** A string of white space only, the empty string included. *)
Definition all_space (s : string) : bool :=
  forallb is_space (list_ascii_of_string s).

(** The step from [d] to [d'] changed neither the persisted table nor the
    session. *)
Definition same_tables (d d' : db) : Prop :=
  committed d' = committed d /\ session d' = session d.

(** A read handler: it returns a response, changes no table, and answers 500
    exactly when its round trip fails. *)
Definition read_only (h : M response) : Prop :=
  forall d, exists body status d',
    h d = (Ok (body, status), d') /\
    same_tables d d' /\
    (status = 500 <-> hd false (faults d) = true).

(** A handler that answers with one of the listed status codes only. *)
Definition answers_within (codes : list Z) (h : M response) : Prop :=
  forall d, exists body status d',
    h d = (Ok (body, status), d') /\ In status codes.

(** The row [book] once an update has assigned it the fields of the payload
    [kvs], and the state once that is persisted. *)
Definition updated (book : Book.t) (kvs : list (string * pyval)) : Book.t :=
  Book.mk (Book.id book) (field kvs "title") (field kvs "author")
          (field kvs "year") (field kvs "isbn") (Book.created_at book).


(** The state once the delete of the row [book_id] is persisted. *)
Definition with_deleted (book_id : Z) (d : db) : db :=
  let tb := mkTable (filter (fun r => negb (Book.id r =? book_id))
                            (rows (committed d)))
                    (next_id (committed d)) in
  mkDb tb tb [].

(** A row that passed the validator when it was stored. *)
Definition stored_ok (b : Book.t) : Prop :=
  nonblank (Book.title b) = true /\
  nonblank (Book.author b) = true /\
  truthy (Book.isbn b) = true /\
  exists e z, py_int e (Book.year b) = Ok z /\ 0 <= z <= current_year e.

(** A payload that revises Emma under an isbn no Book holds. *)
Definition emma_revised : list (string * pyval) :=
  [("title", PStr "Emma, revised"); ("author", PStr "Jane Austen");
   ("year", PInt 1816); ("isbn", PStr "9780199535521")].

(** ** Equality of values *)

Section PyvalInduction.

Variable P : pyval -> Prop.
Hypothesis HNone : P PNone.
Hypothesis HBool : forall b, P (PBool b).
Hypothesis HInt : forall z, P (PInt z).
Hypothesis HFloat : forall f, P (PFloat f).
Hypothesis HStr : forall s, P (PStr s).
Hypothesis HList : forall l, Forall P l -> P (PList l).
Hypothesis HDict : forall d, Forall (fun kv => P (snd kv)) d -> P (PDict d).

Fixpoint pyval_ind (v : pyval) : P v :=
  match v with
  | PNone => HNone
  | PBool b => HBool b
  | PInt z => HInt z
  | PFloat f => HFloat f
  | PStr s => HStr s
  | PList l =>
      HList l ((fix all (l : list pyval) : Forall P l :=
                  match l with
                  | [] => Forall_nil P
                  | x :: t => Forall_cons x (pyval_ind x) (all t)
                  end) l)
  | PDict d =>
      HDict d ((fix all (d : list (string * pyval))
                  : Forall (fun kv => P (snd kv)) d :=
                  match d with
                  | [] => Forall_nil _
                  | kv :: t => Forall_cons kv (pyval_ind (snd kv)) (all t)
                  end) d)
  end.

End PyvalInduction.

Lemma float_eqb_eq (f g : pyfloat) : float_eqb f g = true <-> f = g.
Proof.
  destruct f as [m e| b |], g as [m' e'| b' |]; simpl; split; intro H;
    try discriminate; try reflexivity.
  - apply andb_true_iff in H as [Hm He].
    apply Z.eqb_eq in Hm, He. now subst.
  - inversion H; subst. now rewrite !Z.eqb_refl.
  - apply Bool.eqb_prop in H. now subst.
  - inversion H; subst. apply Bool.eqb_reflx.
Qed.

Lemma pyval_eqb_eq (v w : pyval) : pyval_eqb v w = true <-> v = w.
Proof.
  revert w. induction v as [ | b | z | f | s | l IH | d IH] using pyval_ind;
    intros [ | b' | z' | f' | s' | l' | d']; simpl;
    try (split; intro H; [discriminate H | discriminate H]);
    try (split; intro H; reflexivity).
  - rewrite Bool.eqb_true_iff. split; intro H; [now subst | now inversion H].
  - rewrite Z.eqb_eq. split; intro H; [now subst | now inversion H].
  - rewrite float_eqb_eq. split; intro H; [now subst | now inversion H].
  - rewrite String.eqb_eq. split; intro H; [now subst | now inversion H].
  - revert l'. induction IH as [ | x t Hx _ IHt]; intros [ | x' t'];
      try (split; intro H; [discriminate H | discriminate H]);
      try (split; intro H; reflexivity).
    rewrite andb_true_iff, Hx. specialize (IHt t').
    split.
    + intros [-> Ht]. apply IHt in Ht. now inversion Ht.
    + intro H. inversion H; subst. split; [reflexivity | now apply IHt].
  - revert d'. induction IH as [ | [k x] t Hx _ IHt]; intros [ | [k' x'] t'];
      try (split; intro H; [discriminate H | discriminate H]);
      try (split; intro H; reflexivity).
    simpl in Hx. rewrite !andb_true_iff, Hx, String.eqb_eq. specialize (IHt t').
    split.
    + intros [[-> ->] Ht]. apply IHt in Ht. now inversion Ht.
    + intro H. inversion H; subst. repeat split; now apply IHt.
Qed.

Lemma pyval_eqb_refl (v : pyval) : pyval_eqb v v = true.
Proof. now apply pyval_eqb_eq. Qed.

Lemma pyval_eqb_neq (v w : pyval) : pyval_eqb v w = false <-> v <> w.
Proof.
  rewrite <- pyval_eqb_eq. destruct (pyval_eqb v w); split; congruence.
Qed.

(** ** The validator, rule by rule *)

Lemma assoc_truthy (k : string) (kvs : list (string * pyval)) (v : pyval) :
  assoc k kvs = Some v -> truthy (PDict kvs) = true.
Proof. destruct kvs; simpl; [discriminate | reflexivity]. Qed.

Lemma getitem_field (kvs : list (string * pyval)) (k : string) (v : pyval) :
  getitem (PDict kvs) k = Ok v -> field kvs k = v.
Proof.
  unfold getitem, field. destruct (assoc k kvs); intro H; now inversion H.
Qed.

Lemma field_not_none (kvs : list (string * pyval)) (k : string) :
  is_none (field kvs k) = false -> getitem (PDict kvs) k = Ok (field kvs k).
Proof.
  unfold getitem, field. destruct (assoc k kvs); simpl; [reflexivity | discriminate].
Qed.

Lemma field_truthy (kvs : list (string * pyval)) (k : string) :
  truthy (field kvs k) = true -> getitem (PDict kvs) k = Ok (field kvs k).
Proof.
  intro H. apply field_not_none. now destruct (field kvs k).
Qed.

Lemma check_title_dict (kvs : list (string * pyval)) (errors : list string) :
  check_title (PDict kvs) false errors =
  if negb (truthy (field kvs "title")) then Ok (errors ++ [msg_title])
  else match field kvs "title" with
       | PStr s => Ok (if (String.length (strip s) =? 0)%nat
                       then errors ++ [msg_title] else errors)
       | _ => Raise AttributeError
       end.
Proof.
  unfold check_title, field_checked, dict_get, field, rbind; simpl.
  destruct (assoc "title" kvs) as [v | ]; simpl; [ | reflexivity].
  destruct (truthy v) eqn:Hv; simpl; [ | reflexivity].
  destruct v; simpl; try reflexivity.
Qed.

Lemma check_author_dict (kvs : list (string * pyval)) (errors : list string) :
  check_author (PDict kvs) false errors =
  if negb (truthy (field kvs "author")) then Ok (errors ++ [msg_author])
  else match field kvs "author" with
       | PStr s => Ok (if (String.length (strip s) =? 0)%nat
                       then errors ++ [msg_author] else errors)
       | _ => Raise AttributeError
       end.
Proof.
  unfold check_author, field_checked, dict_get, field, rbind; simpl.
  destruct (assoc "author" kvs) as [v | ]; simpl; [ | reflexivity].
  destruct (truthy v) eqn:Hv; simpl; [ | reflexivity].
  destruct v; simpl; try reflexivity.
Qed.

Lemma check_year_dict (e : env) (kvs : list (string * pyval)) (errors : list string) :
  check_year e (PDict kvs) false errors =
  if is_none (field kvs "year") then Ok (errors ++ [msg_year_required])
  else match py_int e (field kvs "year") with
       | Ok year => Ok (if (year <? 0) || (year >? current_year e)
                        then errors ++ [msg_year_range e] else errors)
       | Raise ValueError | Raise TypeError => Ok (errors ++ [msg_year_integer])
       | Raise x => Raise x
       end.
Proof.
  unfold check_year, field_checked, dict_get, getitem, field, rbind; simpl.
  destruct (assoc "year" kvs) as [v | ]; simpl; [ | reflexivity].
  destruct (is_none v) eqn:Hv; simpl; [reflexivity | ].
  destruct (py_int e v) as [year | x]; [reflexivity | now destruct x].
Qed.

Lemma check_isbn_dict (kvs : list (string * pyval)) (errors : list string) :
  check_isbn (PDict kvs) false errors =
  Ok (if truthy (field kvs "isbn") then errors else errors ++ [msg_isbn]).
Proof.
  unfold check_isbn, field_checked, dict_get, field, rbind; simpl.
  destruct (assoc "isbn" kvs) as [v | ]; simpl; [ | reflexivity].
  now destruct (truthy v).
Qed.

(** A value that is not a dict has no [get]. *)
Lemma validate_not_dict (e : env) (data : pyval) :
  (forall kvs, data <> PDict kvs) ->
  validate_book_data e data false = Raise AttributeError.
Proof.
  intro H. destruct data; try reflexivity. now elim (H d).
Qed.

Lemma py_int_raises (e : env) (v : pyval) (x : exn) :
  py_int e v = Raise x ->
  x = TypeError \/ x = ValueError \/ (x = OverflowError /\ is_infinite v = true).
Proof.
  destruct v as [ | b | z | [m ex | neg | ] | s | l | d]; simpl; intro H;
    try discriminate H; try (inversion H; now auto).
  unfold int_of_string in H.
  destruct (strip_chars (list_ascii_of_string s)) as [ | c t].
  - simpl in H. inversion H; now auto.
  - destruct (Ascii.eqb c "-"); [ | destruct (Ascii.eqb c "+")];
      match type of H with
      | context [parse_digits ?a ?b ?c ?l] =>
          destruct (parse_digits a b c l) as [[n count] | ]
      end;
      try (inversion H; now auto);
      match type of H with
      | (if ?b then _ else _) = _ => destruct b
      end; inversion H; now auto.
Qed.

Lemma range_test (year cy : Z) :
  (year <? 0) || (year >? cy) = negb ((0 <=? year) && (year <=? cy)).
Proof.
  destruct (Z.ltb_spec year 0), (Z.leb_spec 0 year); try lia;
    destruct (Z.leb_spec year cy); simpl;
    rewrite ?Z.gtb_ltb; destruct (Z.ltb_spec cy year); try lia; reflexivity.
Qed.

(** When the two text fields are strippable the validator returns, and its
    list is the four rules' messages, each rule judged on its own field, in
    the order title, author, year, isbn. *)
Lemma validate_dict (e : env) (kvs : list (string * pyval)) :
  strippable (field kvs "title") = true ->
  strippable (field kvs "author") = true ->
  validate_book_data e (PDict kvs) false =
  rbind (year_errors e (field kvs "year"))
        (fun ye => Ok (text_errors msg_title (field kvs "title")
                       ++ text_errors msg_author (field kvs "author")
                       ++ ye ++ isbn_errors (field kvs "isbn"))).
Proof.
  intros Ht Ha. unfold validate_book_data.
  rewrite check_title_dict.
  assert (Htitle : forall v msg, strippable v = true ->
            (if negb (truthy v) then Ok ([] ++ [msg])
             else match v with
                  | PStr s => Ok (if (String.length (strip s) =? 0)%nat
                                  then [] ++ [msg] else [])
                  | _ => Raise AttributeError
                  end) = Ok (text_errors msg v)).
  { intros v msg Hv. unfold strippable in Hv. unfold text_errors.
    destruct (truthy v) eqn:Htv; simpl; [ | reflexivity].
    destruct v; simpl in *; try discriminate Hv.
    now destruct (String.length (strip s) =? 0)%nat. }
  rewrite (Htitle _ _ Ht). cbn [rbind].
  rewrite check_author_dict.
  assert (Hauthor : forall v msg acc, strippable v = true ->
            (if negb (truthy v) then Ok (acc ++ [msg])
             else match v with
                  | PStr s => Ok (if (String.length (strip s) =? 0)%nat
                                  then acc ++ [msg] else acc)
                  | _ => Raise AttributeError
                  end) = Ok (acc ++ text_errors msg v)).
  { intros v msg acc Hv. unfold strippable in Hv. unfold text_errors.
    destruct (truthy v) eqn:Htv; simpl; [ | reflexivity].
    destruct v; simpl in *; try discriminate Hv.
    destruct (String.length (strip s) =? 0)%nat; simpl;
      [reflexivity | now rewrite app_nil_r]. }
  rewrite (Hauthor _ _ _ Ha). cbn [rbind].
  rewrite check_year_dict. unfold year_errors.
  destruct (is_none (field kvs "year")); cbn [rbind].
  - rewrite check_isbn_dict. unfold isbn_errors.
    destruct (truthy (field kvs "isbn")); now rewrite <- ?app_assoc, ?app_nil_r.
  - destruct (py_int e (field kvs "year")) as [year | x]; cbn [rbind].
    + rewrite range_test.
      destruct ((0 <=? year) && (year <=? current_year e)); cbn [negb rbind];
        rewrite check_isbn_dict; unfold isbn_errors;
        destruct (truthy (field kvs "isbn"));
        now rewrite <- ?app_assoc, ?app_nil_r.
    + destruct x; cbn [rbind]; try reflexivity;
        rewrite check_isbn_dict; unfold isbn_errors;
        destruct (truthy (field kvs "isbn"));
        now rewrite <- ?app_assoc, ?app_nil_r.
Qed.
(** ** The handlers, case by case *)

Ltac unfold_handler :=
  unfold BookList.post, BookList.get, BookResource.get, BookResource.put,
    BookResource.delete, internal_server_error, try_except, query_get,
    query_first, query_all, session_add, session_set, session_delete,
    session_commit, session_rollback, roundtrip, bind, lift, ret.

(** Splits the goal along the handler's branches, one scrutinee at a time. *)
Ltac handler_step :=
  match goal with
  | |- context [match ?x with _ => _ end] =>
      lazymatch x with
      | context [match _ with _ => _ end] => fail
      | _ => destruct x eqn:?
      end
  end;
  cbn [faults committed session rows next_id fst snd negb nonempty].

(** Splits the goal along the handler's branches, innermost test first. *)
Ltac handler_cases := cbv beta; repeat handler_step.

Lemma post_no_data (e : env) (data : pyval) (d : db) :
  truthy data = false ->
  BookList.post e data d = (Ok (error_body "No JSON data provided", 400), d).
Proof. intro H. unfold_handler. now rewrite H. Qed.

Lemma post_raise (e : env) (data : pyval) (d : db) (x : exn) :
  truthy data = true ->
  validate_book_data e data false = Raise x ->
  BookList.post e data d = (Ok internal_error, rolled_back d).
Proof. intros H Hv. unfold_handler. now rewrite H, Hv. Qed.

Lemma post_invalid (e : env) (data : pyval) (d : db) (errors : list string) :
  truthy data = true ->
  validate_book_data e data false = Ok errors ->
  errors <> [] ->
  BookList.post e data d = (Ok (validation_failed errors), d).
Proof.
  intros H Hv Hne. unfold_handler. rewrite H, Hv. cbn [negb].
  destruct errors; [now elim Hne | reflexivity].
Qed.

Lemma put_no_data (e : env) (book_id : Z) (data : pyval) (d : db) :
  truthy data = false ->
  BookResource.put e book_id data d
  = (Ok (error_body "No JSON data provided", 400), d).
Proof. intro H. unfold_handler. now rewrite H. Qed.

Lemma field_truthy_dict (kvs : list (string * pyval)) (k : string) :
  truthy (field kvs k) = true -> truthy (PDict kvs) = true.
Proof.
  intro H. apply field_truthy in H. unfold getitem in H.
  destruct (assoc k kvs) eqn:Hk; [ | discriminate H].
  now apply assoc_truthy in Hk.
Qed.

Lemma validate_needs_dict (e : env) (data : pyval) (errors : list string) :
  validate_book_data e data false = Ok errors -> exists kvs, data = PDict kvs.
Proof.
  destruct data; try (intro H; discriminate H). intros _. now eexists.
Qed.

Lemma title_not_strippable (e : env) (kvs : list (string * pyval)) :
  strippable (field kvs "title") = false ->
  validate_book_data e (PDict kvs) false = Raise AttributeError.
Proof.
  intro H. unfold validate_book_data. rewrite check_title_dict.
  unfold strippable in H. apply orb_false_iff in H as [Ht Hs].
  rewrite Ht. cbn [negb]. now destruct (field kvs "title").
Qed.

Lemma author_not_strippable (e : env) (kvs : list (string * pyval)) :
  strippable (field kvs "title") = true ->
  strippable (field kvs "author") = false ->
  validate_book_data e (PDict kvs) false = Raise AttributeError.
Proof.
  intros Ht H. unfold validate_book_data. rewrite check_title_dict.
  assert (Hok : exists errors,
             (if negb (truthy (field kvs "title")) then Ok ([] ++ [msg_title])
              else match field kvs "title" with
                   | PStr s => Ok (if (String.length (strip s) =? 0)%nat
                                   then [] ++ [msg_title] else [])
                   | _ => Raise AttributeError
                   end) = Ok errors).
  { unfold strippable in Ht. destruct (truthy (field kvs "title")); simpl in *.
    - destruct (field kvs "title"); try discriminate Ht. now eexists.
    - now eexists. }
  destruct Hok as [errors ->]. cbn [rbind]. rewrite check_author_dict.
  unfold strippable in H. apply orb_false_iff in H as [Ha Hs].
  rewrite Ha. cbn [negb]. now destruct (field kvs "author").
Qed.

(** What a returned list of errors says of the payload. *)
Lemma validate_ok_inv (e : env) (kvs : list (string * pyval)) (errors : list string) :
  validate_book_data e (PDict kvs) false = Ok errors ->
  strippable (field kvs "title") = true /\
  strippable (field kvs "author") = true /\
  exists ye, year_errors e (field kvs "year") = Ok ye /\
             errors = text_errors msg_title (field kvs "title")
                      ++ text_errors msg_author (field kvs "author")
                      ++ ye ++ isbn_errors (field kvs "isbn").
Proof.
  intro H.
  destruct (strippable (field kvs "title")) eqn:Ht.
  2: { rewrite (title_not_strippable e kvs Ht) in H. discriminate H. }
  destruct (strippable (field kvs "author")) eqn:Ha.
  2: { rewrite (author_not_strippable e kvs Ht Ha) in H. discriminate H. }
  rewrite (validate_dict e kvs Ht Ha) in H.
  destruct (year_errors e (field kvs "year")) as [ye | x]; cbn [rbind] in H;
    [ | discriminate H].
  inversion H. repeat split. now exists ye.
Qed.

Lemma text_errors_cases (msg : string) (v : pyval) :
  text_errors msg v = [] \/ text_errors msg v = [msg].
Proof. unfold text_errors. destruct (truthy v && nonblank v); auto. Qed.

Lemma isbn_errors_cases (v : pyval) :
  isbn_errors v = [] \/ isbn_errors v = [msg_isbn].
Proof. unfold isbn_errors. destruct (truthy v); auto. Qed.

Lemma year_errors_cases (e : env) (v : pyval) (ye : list string) :
  year_errors e v = Ok ye ->
  ye = [] \/ ye = [msg_year_required] \/ ye = [msg_year_integer]
  \/ ye = [msg_year_range e].
Proof.
  unfold year_errors. destruct (is_none v).
  - intro H. inversion H. auto.
  - destruct (py_int e v) as [year | x].
    + destruct ((0 <=? year) && (year <=? current_year e)); intro H; inversion H; auto.
    + destruct x; intro H; inversion H; auto.
Qed.

Lemma validate_in_field_order (e : env) (kvs : list (string * pyval))
      (errors : list string) :
  validate_book_data e (PDict kvs) false = Ok errors -> in_field_order e errors.
Proof.
  intro H. apply validate_ok_inv in H as (_ & _ & ye & Hye & ->).
  exists (text_errors msg_title (field kvs "title")),
         (text_errors msg_author (field kvs "author")),
         ye, (isbn_errors (field kvs "isbn")).
  split; [reflexivity | ].
  split; [apply text_errors_cases | ].
  split; [apply text_errors_cases | ].
  split; [now apply year_errors_cases in Hye | apply isbn_errors_cases].
Qed.

(** The year messages are none of the other fields' messages. *)
Lemma year_message_elsewhere (e : env) (kvs : list (string * pyval))
      (errors : list string) (m : string) :
  validate_book_data e (PDict kvs) false = Ok errors ->
  m = msg_year_required \/ m = msg_year_integer \/ m = msg_year_range e ->
  In m errors ->
  exists ye, year_errors e (field kvs "year") = Ok ye /\ In m ye.
Proof.
  intros H Hm Hin. apply validate_ok_inv in H as (_ & _ & ye & Hye & ->).
  exists ye. split; [exact Hye | ].
  rewrite !in_app_iff in Hin.
  destruct Hin as [Hin | [Hin | [Hin | Hin]]]; [ | | exact Hin | ].
  - destruct (text_errors_cases msg_title (field kvs "title")) as [E | E];
      rewrite E in Hin; simpl in Hin; [tauto | ].
    destruct Hin as [<- | []]. destruct Hm as [Hm | [Hm | Hm]]; discriminate Hm.
  - destruct (text_errors_cases msg_author (field kvs "author")) as [E | E];
      rewrite E in Hin; simpl in Hin; [tauto | ].
    destruct Hin as [<- | []]. destruct Hm as [Hm | [Hm | Hm]]; discriminate Hm.
  - destruct (isbn_errors_cases (field kvs "isbn")) as [E | E];
      rewrite E in Hin; simpl in Hin; [tauto | ].
    destruct Hin as [<- | []]. destruct Hm as [Hm | [Hm | Hm]]; discriminate Hm.
Qed.

Lemma year_errors_in (e : env) (kvs : list (string * pyval))
      (errors ye : list string) :
  validate_book_data e (PDict kvs) false = Ok errors ->
  year_errors e (field kvs "year") = Ok ye ->
  (forall m, In m ye -> In m errors) /\
  (ye = [] -> no_year_error e errors).
Proof.
  intros H Hye. split.
  - apply validate_ok_inv in H as (_ & _ & ye' & Hye' & ->).
    rewrite Hye in Hye'. inversion Hye'; subst ye'.
    intros m Hm. rewrite !in_app_iff. auto.
  - intros ->. repeat split; intro Hin;
      eapply year_message_elsewhere in Hin as (ye' & Hye' & Hin'); eauto;
      rewrite Hye in Hye'; inversion Hye'; subst ye'; exact Hin'.
Qed.

Lemma year_errors_of_check (e : env) (kvs : list (string * pyval))
      (errors ye : list string) :
  year_errors e (field kvs "year") = Ok ye ->
  check_year e (PDict kvs) false errors = Ok (errors ++ ye).
Proof.
  rewrite check_year_dict. unfold year_errors.
  destruct (is_none (field kvs "year")).
  - intro H. now inversion H.
  - destruct (py_int e (field kvs "year")) as [year | x].
    + rewrite range_test.
      destruct ((0 <=? year) && (year <=? current_year e)); cbn [negb];
        intro H; inversion H; now rewrite ?app_nil_r.
    + destruct x; intro H; inversion H; reflexivity.
Qed.

Lemma assoc_field (kvs : list (string * pyval)) (k : string) (v : pyval) :
  assoc k kvs = Some v -> field kvs k = v.
Proof. unfold field. now intros ->. Qed.

Lemma assoc_none_field (kvs : list (string * pyval)) (k : string) :
  assoc k kvs = None -> field kvs k = PNone.
Proof. unfold field. now intros ->. Qed.

(** The fields of a payload that the validator passes. *)
Lemma validate_valid_inv (e : env) (kvs : list (string * pyval)) :
  validate_book_data e (PDict kvs) false = Ok [] ->
  truthy (field kvs "title") = true /\ nonblank (field kvs "title") = true /\
  truthy (field kvs "author") = true /\ nonblank (field kvs "author") = true /\
  (exists z, py_int e (field kvs "year") = Ok z /\ 0 <= z <= current_year e) /\
  truthy (field kvs "isbn") = true.
Proof.
  intro H. apply validate_ok_inv in H as (_ & _ & ye & Hye & H).
  symmetry in H.
  apply app_eq_nil in H as [Ht H]. apply app_eq_nil in H as [Ha H].
  apply app_eq_nil in H as [Hy Hi]. subst ye.
  unfold text_errors in Ht, Ha. unfold isbn_errors in Hi.
  destruct (truthy (field kvs "title")); [ | discriminate Ht].
  destruct (nonblank (field kvs "title")); [ | discriminate Ht].
  destruct (truthy (field kvs "author")); [ | discriminate Ha].
  destruct (nonblank (field kvs "author")); [ | discriminate Ha].
  destruct (truthy (field kvs "isbn")); [ | discriminate Hi].
  repeat split.
  unfold year_errors in Hye.
  destruct (is_none (field kvs "year")); [discriminate Hye | ].
  destruct (py_int e (field kvs "year")) as [z | x].
  - exists z. split; [reflexivity | ].
    destruct (Z.leb_spec 0 z), (Z.leb_spec z (current_year e));
      simpl in Hye; try discriminate Hye. lia.
  - destruct x; discriminate Hye.
Qed.

Lemma nonblank_strippable (v : pyval) : nonblank v = true -> strippable v = true.
Proof.
  destruct v; simpl; try discriminate. intros _. unfold strippable. simpl.
  apply orb_true_r.
Qed.

Lemma nonblank_truthy (v : pyval) : nonblank v = true -> truthy v = true.
Proof.
  destruct v as [ | | | | s | | ]; simpl; try discriminate.
  destruct s; [discriminate | reflexivity].
Qed.

(** The converse: what makes the validator return the empty list. *)
Lemma validate_valid (e : env) (kvs : list (string * pyval)) (z : Z) :
  nonblank (field kvs "title") = true ->
  nonblank (field kvs "author") = true ->
  py_int e (field kvs "year") = Ok z -> 0 <= z <= current_year e ->
  truthy (field kvs "isbn") = true ->
  validate_book_data e (PDict kvs) false = Ok [].
Proof.
  intros Ht Ha Hz Hr Hi.
  rewrite validate_dict by now apply nonblank_strippable.
  unfold year_errors, text_errors, isbn_errors.
  rewrite Ht, Ha, Hi, Hz, !nonblank_truthy by assumption.
  assert (Hn : is_none (field kvs "year") = false).
  { destruct (field kvs "year"); try reflexivity. discriminate Hz. }
  rewrite Hn.
  destruct (Z.leb_spec 0 z), (Z.leb_spec z (current_year e)); try lia.
  reflexivity.
Qed.

(** ** Rows and keys *)


Lemma find_by_key (l : list Book.t) (b : Book.t) :
  NoDup (map Book.id l) -> In b l ->
  find (fun r => Book.id r =? Book.id b) l = Some b.
Proof.
  induction l as [ | r l IH]; simpl; [contradiction | ].
  intros Hnd [-> | Hin].
  - now rewrite Z.eqb_refl.
  - inversion Hnd as [ | x xs Hnotin Hnd']; subst.
    destruct (Z.eqb_spec (Book.id r) (Book.id b)) as [E | _].
    + exfalso. apply Hnotin. rewrite E. now apply in_map.
    + now apply IH.
Qed.


Lemma find_app (p : Book.t -> bool) (l l' : list Book.t) :
  find p (l ++ l') = match find p l with
                     | Some b => Some b
                     | None => find p l'
                     end.
Proof.
  induction l as [ | r l IH]; simpl; [reflexivity | ].
  now destruct (p r).
Qed.

Lemma count_isbn_none (i : pyval) (l : list Book.t) :
  find (fun b => pyval_eqb (Book.isbn b) i) l = None ->
  filter (fun b => pyval_eqb (Book.isbn b) i) l = [].
Proof.
  induction l as [ | r l IH]; simpl; [reflexivity | ].
  destruct (pyval_eqb (Book.isbn r) i); [discriminate | exact IH].
Qed.

(** ** Create *)


Lemma get_found (book_id : Z) (d : db) (book : Book.t) :
  faults d = [] ->
  find (fun b => Book.id b =? book_id) (rows (session d)) = Some book ->
  BookResource.get book_id d = (Ok (PDict [("book", Book.to_dict book)], 200), d).
Proof. intros Hf H. unfold_handler. now rewrite Hf, H. Qed.

(** What a 201 tells of the request and of the state it leaves. *)
Lemma post_201_inv (e : env) (data : pyval) (d d1 : db) (body : pyval) :
  BookList.post e data d = (Ok (body, 201), d1) ->
  exists kvs,
    data = PDict kvs /\
    validate_book_data e data false = Ok [] /\
    find (fun b => pyval_eqb (Book.isbn b) (field kvs "isbn")) (rows (session d)) = None /\
    committed d1 = mkTable (rows (session d) ++ [created e kvs d])
                           (next_id (session d) + 1) /\
    session d1 = committed d1 /\
    body = PDict [("message", PStr "Book created successfully");
                  ("book", Book.to_dict (created e kvs d))].
Proof.
  unfold_handler. handler_cases; intro H; inversion H; subst; clear H;
    match goal with
    | Hv : validate_book_data _ _ _ = Ok ?l, Hn : nonempty ?l = false |- _ =>
        destruct l; [ | discriminate Hn];
        destruct (validate_needs_dict _ _ _ Hv) as [kvs ->]; exists kvs
    end;
    repeat match goal with
           | Hg : getitem (PDict _) _ = Ok _ |- _ =>
               apply getitem_field in Hg; subst
           end;
    repeat split; assumption.
Qed.

(** ** Create followed by get *)


Lemma wf_empty_db : wf empty_db.
Proof.
  constructor; simpl; try reflexivity; try contradiction. constructor.
Qed.


(** ** Two creates with one isbn *)

(** C2: when a create has succeeded, a following create whose valid payload
    carries the same isbn answers 409 on a healthy store, changes nothing, and
    the persisted table holds exactly one Book with that isbn. *)
Theorem second_create_conflicts (e1 e2 : env) (data1 data2 : pyval) (d d1 : db)
        (body i : pyval) :
  wf d ->
  BookList.post e1 data1 d = (Ok (body, 201), d1) ->
  getitem data1 "isbn" = Ok i ->
  getitem data2 "isbn" = Ok i ->
  validate_book_data e2 data2 false = Ok [] ->
  faults d1 = [] ->
  BookList.post e2 data2 d1
  = (Ok (error_body "Book with this ISBN already exists", 409), d1) /\
  count_isbn i (committed d1) = 1%nat.
Proof.
  intros Hwf H1 Hi1 Hi2 Hv2 Hf.
  apply post_201_inv in H1 as (kvs1 & -> & Hv1 & Hnone & Hc & Hs & _).
  apply getitem_field in Hi1. rewrite Hi1 in Hnone.
  destruct (validate_needs_dict _ _ _ Hv2) as [kvs2 ->].
  pose proof (validate_valid_inv e2 kvs2 Hv2) as (Ht & _).
  split.
  - unfold_handler.
    rewrite (field_truthy_dict kvs2 "title" Ht), Hv2. cbn [negb nonempty].
    rewrite Hi2, Hf. cbn [faults session]. rewrite Hs, Hc. cbn [rows].
    rewrite find_app, Hnone. cbn [find created Book.isbn].
    rewrite Hi1, pyval_eqb_refl. destruct d1; reflexivity.
  - unfold count_isbn. rewrite Hc. cbn [rows].
    rewrite filter_app, (count_isbn_none _ _ Hnone).
    cbn [filter created Book.isbn app]. now rewrite Hi1, pyval_eqb_refl.
Qed.

Lemma second_create_conflicts_witness :
  BookList.post env0 dune one_book
  = (Ok (error_body "Book with this ISBN already exists", 409), one_book) /\
  count_isbn (PStr "9780441013593") (committed one_book) = 1%nat.
Proof.
  apply (second_create_conflicts env0 env0 dune dune empty_db one_book
           (PDict [("message", PStr "Book created successfully");
                   ("book", Book.to_dict dune_row)])).
  - exact wf_empty_db.
  - reflexivity.
  - reflexivity.
  - reflexivity.
  - reflexivity.
  - reflexivity.
Defined.

(** ** The validator on ill-typed text *)

(** C3: at the payload [{"title": 5}] the validator returns no list: the
    title rule raises [AttributeError] at [.strip()], the author, year and isbn
    rules are not evaluated although each has a message to report, and create
    answers 500. *)
Theorem validate_stops_at_numeric_title :
  validate_book_data env0 (PDict [("title", PInt 5)]) false = Raise AttributeError /\
  text_errors msg_author (field [("title", PInt 5)] "author") = [msg_author] /\
  year_errors env0 (field [("title", PInt 5)] "year") = Ok [msg_year_required] /\
  isbn_errors (field [("title", PInt 5)] "isbn") = [msg_isbn] /\
  BookList.post env0 (PDict [("title", PInt 5)]) empty_db
  = (Ok internal_error, empty_db).
Proof. repeat split. Qed.

(** C9: a payload whose title, or whose author behind a strippable title, is
    true and not a string makes the validator raise [AttributeError]; create
    then answers 500, and so does update of an existing Book. *)
Theorem non_string_text_is_internal_error (e : env) (kvs : list (string * pyval))
        (v : pyval) :
  truthy v = true ->
  is_str v = false ->
  field kvs "title" = v \/
  (strippable (field kvs "title") = true /\ field kvs "author" = v) ->
  validate_book_data e (PDict kvs) false = Raise AttributeError /\
  (forall d, BookList.post e (PDict kvs) d = (Ok internal_error, rolled_back d)) /\
  (forall d book_id,
      find (fun b => Book.id b =? book_id) (rows (session d)) <> None ->
      exists d', BookResource.put e book_id (PDict kvs) d = (Ok internal_error, d')).
Proof.
  intros Hv Hs Hwhere.
  assert (Hns : strippable v = false).
  { unfold strippable. now rewrite Hv, Hs. }
  assert (Hraise : validate_book_data e (PDict kvs) false = Raise AttributeError).
  { destruct Hwhere as [Ht | [Ht Ha]].
    - apply title_not_strippable. now rewrite Ht.
    - apply author_not_strippable; [exact Ht | now rewrite Ha]. }
  assert (Hdata : truthy (PDict kvs) = true).
  { destruct Hwhere as [Ht | [_ Ha]];
      [apply (field_truthy_dict kvs "title") | apply (field_truthy_dict kvs "author")];
      congruence. }
  split; [exact Hraise | ]. split.
  - intro d. now apply (post_raise e _ d AttributeError).
  - intros d book_id Hfound. unfold_handler. rewrite Hdata. cbn [negb].
    destruct (faults d) as [ | [ | ] script]; cbn [session];
      try (eexists; reflexivity);
      destruct (find _ (rows (session d))); try contradiction;
      rewrite Hraise; eexists; reflexivity.
Qed.

Lemma non_string_text_is_internal_error_witness :
  validate_book_data env0 (PDict [("title", PInt 5)]) false = Raise AttributeError /\
  (forall d, BookList.post env0 (PDict [("title", PInt 5)]) d
             = (Ok internal_error, rolled_back d)) /\
  (forall d book_id,
      find (fun b => Book.id b =? book_id) (rows (session d)) <> None ->
      exists d', BookResource.put env0 book_id (PDict [("title", PInt 5)]) d
                 = (Ok internal_error, d')).
Proof.
  apply (non_string_text_is_internal_error env0 [("title", PInt 5)] (PInt 5)).
  - reflexivity.
  - reflexivity.
  - left. reflexivity.
Defined.

(** ** The year rule *)

Lemma year_rule_when (e : env) (kvs : list (string * pyval)) (ye : list string) :
  year_errors e (field kvs "year") = Ok ye ->
  (forall errors, check_year e (PDict kvs) false errors = Ok (errors ++ ye)) /\
  (forall errs, validate_book_data e (PDict kvs) false = Ok errs ->
                (forall m, In m ye -> In m errs) /\
                (ye = [] -> no_year_error e errs)).
Proof.
  intro H. split.
  - intro errors. now apply year_errors_of_check.
  - intros errs Hv. now apply (year_errors_in e kvs).
Qed.

(** C4: in non-partial mode the year rule appends the range message for
    year -1 and for year current_year + 1, the integer message for year "abc",
    nothing for year current_year, and "Year is required" when year is absent;
    whenever the validator returns, its list holds that message, and no year
    message for year current_year. *)
Theorem year_rule_cases (e : env) (kvs : list (string * pyval))
        (errors : list string) :
  0 <= current_year e ->
  (assoc "year" kvs = Some (PInt (-1)) ->
   check_year e (PDict kvs) false errors = Ok (errors ++ [msg_year_range e]) /\
   forall errs, validate_book_data e (PDict kvs) false = Ok errs ->
                In (msg_year_range e) errs) /\
  (assoc "year" kvs = Some (PInt (current_year e + 1)) ->
   check_year e (PDict kvs) false errors = Ok (errors ++ [msg_year_range e]) /\
   forall errs, validate_book_data e (PDict kvs) false = Ok errs ->
                In (msg_year_range e) errs) /\
  (assoc "year" kvs = Some (PStr "abc") ->
   check_year e (PDict kvs) false errors = Ok (errors ++ [msg_year_integer]) /\
   forall errs, validate_book_data e (PDict kvs) false = Ok errs ->
                In msg_year_integer errs) /\
  (assoc "year" kvs = Some (PInt (current_year e)) ->
   check_year e (PDict kvs) false errors = Ok errors /\
   forall errs, validate_book_data e (PDict kvs) false = Ok errs ->
                no_year_error e errs) /\
  (assoc "year" kvs = None ->
   check_year e (PDict kvs) false errors = Ok (errors ++ [msg_year_required]) /\
   forall errs, validate_book_data e (PDict kvs) false = Ok errs ->
                In msg_year_required errs).
Proof.
  intro Hcy.
  assert (Hmsg : forall v m,
            field kvs "year" = v -> year_errors e v = Ok [m] ->
            check_year e (PDict kvs) false errors = Ok (errors ++ [m]) /\
            forall errs, validate_book_data e (PDict kvs) false = Ok errs ->
                         In m errs).
  { intros v m Hv Hye. rewrite <- Hv in Hye.
    destruct (year_rule_when e kvs [m] Hye) as [Hc Hval]. split; [apply Hc | ].
    intros errs Herrs. apply (Hval errs Herrs). now left. }
  split; [ | split; [ | split; [ | split]]]; intro Hy.
  - apply assoc_field in Hy. apply (Hmsg _ _ Hy). reflexivity.
  - apply assoc_field in Hy. apply (Hmsg _ _ Hy). unfold year_errors. simpl.
    destruct (Z.leb_spec 0 (current_year e + 1)),
             (Z.leb_spec (current_year e + 1) (current_year e)); try lia;
      reflexivity.
  - apply assoc_field in Hy. apply (Hmsg _ _ Hy). reflexivity.
  - apply assoc_field in Hy.
    assert (Hye : year_errors e (field kvs "year") = Ok []).
    { rewrite Hy. unfold year_errors. simpl.
      destruct (Z.leb_spec 0 (current_year e)); [ | lia].
      now rewrite Z.leb_refl. }
    destruct (year_rule_when e kvs [] Hye) as [Hc Hval]. split.
    + now rewrite Hc, app_nil_r.
    + intros errs Herrs. now apply (Hval errs Herrs).
  - apply assoc_none_field in Hy. apply (Hmsg _ _ Hy). reflexivity.
Qed.

Lemma year_rule_cases_witness :
  check_year env0 (PDict [("year", PInt (-1))]) false []
  = Ok [msg_year_range env0].
Proof.
  refine (proj1 (proj1 (year_rule_cases env0 [("year", PInt (-1))] [] _) eq_refl)).
  simpl. lia.
Defined.




(** ** Update *)

(** C8, as the claim words it, fails: the update of Emma to the isbn of Dune
    answers 409 with a body that is not create's. *)
Lemma update_conflict_body_counterexample :
  BookResource.put env0 2 dune two_books
  = (Ok (error_body "Another book with this ISBN already exists", 409), two_books) /\
  error_body "Another book with this ISBN already exists"
  <> error_body "Book with this ISBN already exists".
Proof. split; [reflexivity | discriminate]. Qed.

(** C8, amended: every update that answers 409 carries the body
    [{error: 'Another book with this ISBN already exists'}] and leaves the
    table and the session as they were. *)
Theorem update_conflict_rendering (e : env) (book_id : Z) (data : pyval)
        (d d' : db) (body : pyval) :
  BookResource.put e book_id data d = (Ok (body, 409), d') ->
  body = error_body "Another book with this ISBN already exists" /\
  committed d' = committed d /\ session d' = session d.
Proof.
  unfold_handler. handler_cases; intro H; inversion H; subst; now repeat split.
Qed.

Lemma update_conflict_rendering_witness :
  error_body "Another book with this ISBN already exists"
  = error_body "Another book with this ISBN already exists" /\
  committed two_books = committed two_books /\
  session two_books = session two_books.
Proof.
  apply (update_conflict_rendering env0 2 dune two_books two_books).
  reflexivity.
Defined.


Lemma map_replace_twice (k : Z) (b1 b2 : Book.t) (l : list Book.t) :
  Book.id b1 = k ->
  map (fun r => if Book.id r =? k then b2 else r)
      (map (fun r => if Book.id r =? k then b1 else r) l)
  = map (fun r => if Book.id r =? k then b2 else r) l.
Proof.
  intro Hk. rewrite map_map. apply map_ext. intro r.
  destruct (Z.eqb_spec (Book.id r) k) as [E | N].
  - now rewrite Hk, Z.eqb_refl.
  - now destruct (Z.eqb_spec (Book.id r) k).
Qed.


Lemma wf_two_books : wf two_books.
Proof.
  constructor; simpl.
  - reflexivity.
  - intros b [<- | [<- | []]]; simpl; lia.
  - repeat constructor; simpl; intuition discriminate.
  - intros b b' [<- | [<- | []]] [<- | [<- | []]]; simpl; intro H;
      try reflexivity; discriminate H.
Qed.


(** ** Store failures *)









(** ** Create with missing fields *)

(** C7, as the claim words it, fails at the empty JSON object: title, author
    and isbn are missing, and create answers 400 with
    [{error: 'No JSON data provided'}], which is no list of validation
    messages. *)
Lemma create_empty_object_counterexample :
  assoc "title" [] = None /\ assoc "author" [] = None /\ assoc "isbn" [] = None /\
  BookList.post env0 (PDict []) empty_db
  = (Ok (error_body "No JSON data provided", 400), empty_db) /\
  forall errors, (error_body "No JSON data provided", 400) <> validation_failed errors.
Proof.
  repeat split. intros errors H. discriminate H.
Qed.

Lemma year_errors_total (e : env) (v : pyval) :
  is_infinite v = false -> exists ye, year_errors e v = Ok ye.
Proof.
  intro Hinf. unfold year_errors. destruct (is_none v); [now eexists | ].
  destruct (py_int e v) as [year | x] eqn:Hint; [now eexists | ].
  apply py_int_raises in Hint as [-> | [-> | [_ Hv]]]; try now eexists.
  congruence.
Qed.

(** C7, amended: for every non-empty JSON object whose title and author are
    strings or false values and whose year is not an infinite float, and which
    lacks title, author or isbn, create answers 400 with the validator's list,
    which holds the message of each missing field and is in the order title,
    author, year, isbn; the empty JSON object is answered 400 with
    [{error: 'No JSON data provided'}]. *)
Theorem create_reports_missing_fields (e : env) (kvs : list (string * pyval))
        (d : db) :
  strippable (field kvs "title") = true ->
  strippable (field kvs "author") = true ->
  is_infinite (field kvs "year") = false ->
  assoc "title" kvs = None \/ assoc "author" kvs = None \/ assoc "isbn" kvs = None ->
  (kvs = [] ->
   BookList.post e (PDict kvs) d = (Ok (error_body "No JSON data provided", 400), d)) /\
  (kvs <> [] ->
   exists errors,
     BookList.post e (PDict kvs) d = (Ok (validation_failed errors), d) /\
     (assoc "title" kvs = None -> In msg_title errors) /\
     (assoc "author" kvs = None -> In msg_author errors) /\
     (assoc "isbn" kvs = None -> In msg_isbn errors) /\
     in_field_order e errors).
Proof.
  intros Ht Ha Hinf Hmissing. split.
  - intros ->. now apply post_no_data.
  - intro Hne.
    destruct (year_errors_total e _ Hinf) as [ye Hye].
    pose proof (validate_dict e kvs Ht Ha) as Hv. rewrite Hye in Hv. cbn [rbind] in Hv.
    eexists. split; [ | split; [ | split; [ | split]]].
    + apply post_invalid; [ | exact Hv | ].
      * destruct kvs; [now elim Hne | reflexivity].
      * intro Hnil. apply app_eq_nil in Hnil as [H1 Hnil].
        apply app_eq_nil in Hnil as [H2 Hnil]. apply app_eq_nil in Hnil as [_ H3].
        destruct Hmissing as [Hm | [Hm | Hm]]; apply assoc_none_field in Hm.
        -- rewrite Hm in H1. discriminate H1.
        -- rewrite Hm in H2. discriminate H2.
        -- rewrite Hm in H3. discriminate H3.
    + intro Hm. apply assoc_none_field in Hm. rewrite Hm.
      apply in_or_app. left. now left.
    + intro Hm. apply assoc_none_field in Hm. rewrite Hm.
      apply in_or_app. right. apply in_or_app. left. now left.
    + intro Hm. apply assoc_none_field in Hm. rewrite Hm.
      apply in_or_app. right. apply in_or_app. right.
      apply in_or_app. right. now left.
    + now apply (validate_in_field_order e kvs).
Qed.

Lemma create_reports_missing_fields_witness :
  exists errors,
    BookList.post env0 (PDict [("year", PInt 1965)]) empty_db
    = (Ok (validation_failed errors), empty_db) /\
    (assoc "title" [("year", PInt 1965)] = None -> In msg_title errors) /\
    (assoc "author" [("year", PInt 1965)] = None -> In msg_author errors) /\
    (assoc "isbn" [("year", PInt 1965)] = None -> In msg_isbn errors) /\
    in_field_order env0 errors.
Proof.
  refine (proj2 (create_reports_missing_fields env0 [("year", PInt 1965)] empty_db
                   eq_refl eq_refl eq_refl _) _).
  - left. reflexivity.
  - discriminate.
Defined.

(** ** The invariant of the store *)

Lemma wf_table_ok (d : db) : wf d -> table_ok (committed d).
Proof. intros [_ H1 H2 H3]. now repeat split. Qed.

Lemma table_ok_wf (tb : table) (script : list bool) :
  table_ok tb -> wf (mkDb tb tb script).
Proof. intros (H1 & H2 & H3). now constructor. Qed.

Lemma wf_script (d : db) (script : list bool) :
  wf d -> wf (mkDb (committed d) (session d) script).
Proof. intros [H0 H1 H2 H3]. now constructor. Qed.

Lemma wf_rolled_back (d : db) (script : list bool) :
  wf d -> wf (mkDb (committed d) (committed d) script).
Proof. intros [H0 H1 H2 H3]. now constructor. Qed.

Lemma table_ok_add (tb : table) (t a y i : pyval) (now : datetime) :
  table_ok tb ->
  find (fun b => pyval_eqb (Book.isbn b) i) (rows tb) = None ->
  table_ok (mkTable (rows tb ++ [Book.mk (next_id tb) t a y i now])
                    (next_id tb + 1)).
Proof.
  intros (Hb & Hk & Hi) Hnone. repeat split; cbn [rows next_id].
  - intros b Hin. apply in_app_or in Hin as [Hin | [<- | []]].
    + specialize (Hb b Hin). lia.
    + simpl. lia.
  - rewrite map_app. cbn [map Book.id].
    apply NoDup_app; [exact Hk | repeat constructor; simpl; tauto | ].
    intros k Hin [<- | []]. apply in_map_iff in Hin as (b & Hid & Hin).
    specialize (Hb b Hin). lia.
  - intros b b' Hin Hin' Hisbn.
    apply in_app_or in Hin as [Hin | [<- | []]];
      apply in_app_or in Hin' as [Hin' | [<- | []]].
    + now apply Hi.
    + apply (find_none _ _ Hnone) in Hin. apply pyval_eqb_neq in Hin.
      simpl in Hisbn. contradiction.
    + apply (find_none _ _ Hnone) in Hin'. apply pyval_eqb_neq in Hin'.
      simpl in Hisbn. congruence.
    + reflexivity.
Qed.

Lemma table_ok_replace (tb : table) (book book' : Book.t) :
  table_ok tb ->
  In book (rows tb) ->
  Book.id book' = Book.id book ->
  find (fun b => pyval_eqb (Book.isbn b) (Book.isbn book')
                 && negb (Book.id b =? Book.id book)) (rows tb) = None ->
  table_ok (mkTable (map (fun r => if Book.id r =? Book.id book then book' else r)
                         (rows tb))
                    (next_id tb)).
Proof.
  intros (Hb & Hk & Hi) Hin Hid Hnone.
  assert (Hkeys : map Book.id (map (fun r => if Book.id r =? Book.id book
                                             then book' else r) (rows tb))
                  = map Book.id (rows tb)).
  { rewrite map_map. apply map_ext. intro r.
    destruct (Z.eqb_spec (Book.id r) (Book.id book)); congruence. }
  assert (Hcase : forall b,
             In b (map (fun r => if Book.id r =? Book.id book then book' else r)
                       (rows tb)) ->
             b = book' \/ (In b (rows tb) /\ Book.id b <> Book.id book)).
  { intros b Hb'. apply in_map_iff in Hb' as (r & Hr & Hrin).
    destruct (Z.eqb_spec (Book.id r) (Book.id book)); subst; auto. }
  assert (Hother : forall b, In b (rows tb) -> Book.id b <> Book.id book ->
                             Book.isbn b <> Book.isbn book').
  { intros b Hbin Hbid Hbi. apply (find_none _ _ Hnone) in Hbin.
    apply andb_false_iff in Hbin as [Hf | Hf].
    - apply pyval_eqb_neq in Hf. contradiction.
    - apply negb_false_iff, Z.eqb_eq in Hf. contradiction. }
  repeat split; cbn [rows next_id].
  - intros b Hb'. destruct (Hcase b Hb') as [-> | [Hbin _]].
    + rewrite Hid. now apply Hb.
    + now apply Hb.
  - now rewrite Hkeys.
  - intros b b' Hb1 Hb2 Hisbn.
    destruct (Hcase b Hb1) as [-> | [Hbin Hbid]];
      destruct (Hcase b' Hb2) as [-> | [Hbin' Hbid']].
    + reflexivity.
    + exfalso. now apply (Hother b' Hbin' Hbid').
    + exfalso. now apply (Hother b Hbin Hbid).
    + now apply Hi.
Qed.

Lemma table_ok_filter (tb : table) (p : Book.t -> bool) :
  table_ok tb -> table_ok (mkTable (filter p (rows tb)) (next_id tb)).
Proof.
  intros (Hb & Hk & Hi). repeat split; cbn [rows next_id].
  - intros b Hin. apply filter_In in Hin as [Hin _]. now apply Hb.
  - clear Hb Hi. induction (rows tb) as [ | r l IH]; simpl; [constructor | ].
    inversion Hk as [ | x xs Hnotin Hnd]; subst.
    destruct (p r); [ | now apply IH].
    simpl. constructor; [ | now apply IH].
    intro Hin. apply Hnotin. apply in_map_iff in Hin as (b & Hid & Hin).
    apply filter_In in Hin as [Hin _]. apply in_map_iff. now exists b.
  - intros b b' Hin Hin' Hisbn.
    apply filter_In in Hin as [Hin _]. apply filter_In in Hin' as [Hin' _].
    now apply Hi.
Qed.

Ltac keeps_wf_leaf Hwf Hclean :=
  cbn [snd];
  first [ match goal with H : _ :: _ = [] |- _ => discriminate H end
        | exact Hwf
        | now apply wf_script
        | now apply wf_rolled_back
        | rewrite ?Hclean in *; apply table_ok_wf ].

Lemma post_keeps_wf (e : env) (data : pyval) (d : db) :
  wf d -> wf (snd (BookList.post e data d)).
Proof.
  intro Hwf. pose proof (wf_clean d Hwf) as Hclean.
  pose proof (wf_table_ok d Hwf) as Hok.
  unfold_handler. handler_cases; keeps_wf_leaf Hwf Hclean;
    now apply table_ok_add.
Qed.

Lemma get_keeps_wf (book_id : Z) (d : db) :
  wf d -> wf (snd (BookResource.get book_id d)).
Proof.
  intro Hwf. pose proof (wf_clean d Hwf) as Hclean.
  unfold_handler. handler_cases; keeps_wf_leaf Hwf Hclean.
Qed.

Lemma list_keeps_wf (d : db) : wf d -> wf (snd (BookList.get d)).
Proof.
  intro Hwf. pose proof (wf_clean d Hwf) as Hclean.
  unfold_handler. handler_cases; keeps_wf_leaf Hwf Hclean.
Qed.

Lemma delete_keeps_wf (book_id : Z) (d : db) :
  wf d -> wf (snd (BookResource.delete book_id d)).
Proof.
  intro Hwf. pose proof (wf_clean d Hwf) as Hclean.
  pose proof (wf_table_ok d Hwf) as Hok.
  unfold_handler. handler_cases; keeps_wf_leaf Hwf Hclean;
    now apply table_ok_filter.
Qed.

Lemma put_keeps_wf (e : env) (book_id : Z) (data : pyval) (d : db) :
  wf d -> wf (snd (BookResource.put e book_id data d)).
Proof.
  intro Hwf. pose proof (wf_clean d Hwf) as Hclean.
  pose proof (wf_table_ok d Hwf) as Hok.
  unfold_handler. handler_cases; keeps_wf_leaf Hwf Hclean;
    cbn [Book.id Book.set_title Book.set_author Book.set_year Book.set_isbn];
    rewrite !map_replace_twice by reflexivity;
    match goal with
    | Hfound : find (fun b => Book.id b =? book_id) _ = Some ?t |- _ =>
        apply find_some in Hfound as [Hin Hid]; apply Z.eqb_eq in Hid;
        apply (table_ok_replace (committed d) t); try assumption;
        [reflexivity | cbn [Book.id Book.isbn]; now rewrite Hid]
    end.
Qed.

Lemma handle_keeps_wf (r : request) (d : db) : wf d -> wf (snd (handle r d)).
Proof.
  destruct r; simpl.
  - apply post_keeps_wf.
  - apply get_keeps_wf.
  - apply list_keeps_wf.
  - apply put_keeps_wf.
  - apply delete_keeps_wf.
Qed.

(** Every state the service reaches is well formed: one row per primary
    key and per isbn, and no change left pending between two requests. *)
Lemma reachable_wf (d : db) : reachable d -> wf d.
Proof.
  induction 1 as [n script | d r _ IH | d script _ IH].
  - apply table_ok_wf. repeat split; simpl; try contradiction. constructor.
  - now apply handle_keeps_wf.
  - now apply wf_script.
Qed.

(** * Further properties of the service *)

(** ** The read handlers *)

Ltac unfold_health :=
  unfold health_check, query_limit_all, try_except, roundtrip, bind, ret.

Ltac read_leaf :=
  do 3 eexists;
  split; [reflexivity | ];
  split; [now split | ];
  cbn [hd];
  repeat match goal with
         | H : faults _ = _ |- _ => rewrite H
         end;
  cbn [hd]; split; intro; first [reflexivity | discriminate].

Lemma get_read_only (book_id : Z) : read_only (BookResource.get book_id).
Proof. intro d. unfold_handler. handler_cases; read_leaf. Qed.

Lemma list_read_only : read_only BookList.get.
Proof. intro d. unfold_handler. handler_cases; read_leaf. Qed.

Lemma health_read_only : read_only health_check.
Proof. intro d. unfold_health. handler_cases; read_leaf. Qed.

(** X1: get of one Book, the list of all Books and the health probe return
    a response from every state, change neither the persisted table nor the
    session, and answer 500 exactly when their round trip to the store
    fails. *)
Theorem reads_change_nothing (book_id : Z) :
  read_only (BookResource.get book_id) /\
  read_only BookList.get /\
  read_only health_check.
Proof.
  split; [apply get_read_only | split; [apply list_read_only | apply health_read_only]].
Qed.

(** ** Create, list and get together *)




(** ** Delete *)

Lemma find_filter_out (l : list Book.t) (k : Z) :
  find (fun r => Book.id r =? k) (filter (fun r => negb (Book.id r =? k)) l) = None.
Proof.
  induction l as [ | r l IH]; simpl; [reflexivity | ].
  destruct (Book.id r =? k) eqn:E; simpl; [exact IH | now rewrite E].
Qed.

Lemma find_filter_other (l : list Book.t) (k : Z) (b : Book.t) :
  NoDup (map Book.id l) -> In b l -> Book.id b <> k ->
  find (fun r => Book.id r =? Book.id b)
       (filter (fun r => negb (Book.id r =? k)) l) = Some b.
Proof.
  intros Hnd Hin Hk. apply find_by_key.
  - clear Hin. induction l as [ | r l IH]; simpl; [constructor | ].
    inversion Hnd as [ | x xs Hnotin Hnd']; subst.
    destruct (negb (Book.id r =? k)); [ | now apply IH].
    simpl. constructor; [ | now apply IH].
    intro H. apply Hnotin. apply in_map_iff in H as (b' & Hid & Hb').
    apply filter_In in Hb' as [Hb' _]. apply in_map_iff. now exists b'.
  - apply filter_In. split; [exact Hin | ].
    now destruct (Z.eqb_spec (Book.id b) k).
Qed.

Lemma delete_found (d : db) (book : Book.t) :
  wf d -> faults d = [] -> In book (rows (committed d)) ->
  BookResource.delete (Book.id book) d
  = (Ok (PDict [("message", PStr "Book deleted successfully")], 200),
     with_deleted (Book.id book) d).
Proof.
  intros Hwf Hf Hin. pose proof (wf_clean d Hwf) as Hclean.
  unfold_handler. rewrite Hf. cbn [session]. rewrite Hclean.
  rewrite (find_by_key _ _ (wf_keys d Hwf) Hin).
  cbn [session committed faults rows next_id]. rewrite Hf, Hclean. reflexivity.
Qed.

(** X3: on a well-formed state and a healthy store, delete of a stored Book
    answers 200 and persists the table without that row; get of its id then
    answers 404, and get of every other Book still returns it unchanged. *)
Theorem delete_then_get (d : db) (book : Book.t) :
  wf d ->
  faults d = [] ->
  In book (rows (committed d)) ->
  let d' := with_deleted (Book.id book) d in
  BookResource.delete (Book.id book) d
  = (Ok (PDict [("message", PStr "Book deleted successfully")], 200), d') /\
  BookResource.get (Book.id book) d' = (Ok (error_body "Book not found", 404), d') /\
  (forall other, In other (rows (committed d)) -> Book.id other <> Book.id book ->
                 BookResource.get (Book.id other) d'
                 = (Ok (PDict [("book", Book.to_dict other)], 200), d')).
Proof.
  intros Hwf Hf Hin d'. split; [now apply delete_found | ]. split.
  - unfold_handler. subst d'. unfold with_deleted. cbn [faults session rows].
    now rewrite find_filter_out.
  - intros other Hother Hid. apply get_found; [reflexivity | ].
    subst d'. unfold with_deleted. cbn [session rows].
    apply find_filter_other; [apply (wf_keys d Hwf) | exact Hother | exact Hid].
Qed.

Lemma delete_then_get_witness :
  let d' := with_deleted (Book.id dune_row) two_books in
  BookResource.delete (Book.id dune_row) two_books
  = (Ok (PDict [("message", PStr "Book deleted successfully")], 200), d') /\
  BookResource.get (Book.id dune_row) d' = (Ok (error_body "Book not found", 404), d') /\
  (forall other, In other (rows (committed two_books)) ->
                 Book.id other <> Book.id dune_row ->
                 BookResource.get (Book.id other) d'
                 = (Ok (PDict [("book", Book.to_dict other)], 200), d')).
Proof.
  apply (delete_then_get two_books dune_row).
  - exact wf_two_books.
  - reflexivity.
  - simpl. now left.
Defined.

(** X4: on a healthy store, get, update and delete of an id that no row has
    answer 404 with [{error: 'Book not found'}] and change nothing; update
    does so whatever the payload, valid or not, as long as it is not false. *)
Theorem missing_book_is_not_found (e : env) (book_id : Z) (data : pyval) (d : db) :
  faults d = [] ->
  (forall b, In b (rows (session d)) -> Book.id b <> book_id) ->
  truthy data = true ->
  BookResource.get book_id d = (Ok (error_body "Book not found", 404), d) /\
  BookResource.put e book_id data d = (Ok (error_body "Book not found", 404), d) /\
  BookResource.delete book_id d = (Ok (error_body "Book not found", 404), d).
Proof.
  intros Hf Hnone Hdata.
  assert (Hfind : find (fun b => Book.id b =? book_id) (rows (session d)) = None).
  { destruct (find _ (rows (session d))) as [b | ] eqn:Hb; [ | reflexivity].
    apply find_some in Hb as [Hin Hid]. apply Z.eqb_eq in Hid.
    now elim (Hnone b Hin). }
  repeat split; unfold_handler; rewrite ?Hdata; cbn [negb];
    rewrite Hf; cbn [session]; now rewrite Hfind.
Qed.

Lemma missing_book_is_not_found_witness :
  BookResource.get 7 two_books = (Ok (error_body "Book not found", 404), two_books) /\
  BookResource.put env0 7 (PDict [("title", PInt 5)]) two_books
  = (Ok (error_body "Book not found", 404), two_books) /\
  BookResource.delete 7 two_books = (Ok (error_body "Book not found", 404), two_books).
Proof.
  apply (missing_book_is_not_found env0 7 (PDict [("title", PInt 5)]) two_books).
  - reflexivity.
  - intros b [<- | [<- | []]]; discriminate.
  - reflexivity.
Defined.

(** ** Update *)







Lemma in_replaced (l : list Book.t) (book book' b : Book.t) :
  In b (map (fun r => if Book.id r =? Book.id book then book' else r) l) ->
  b = book' \/ (In b l /\ Book.id b <> Book.id book).
Proof.
  intro H. apply in_map_iff in H as (r & Hr & Hin).
  destruct (Z.eqb_spec (Book.id r) (Book.id book)); subst; auto.
Qed.



(** ** Delete and create *)



(** ** What the answers tell *)

Ltac within_leaf :=
  do 3 eexists; split; [reflexivity | simpl; tauto].

(** X8: every handler answers with a status it declares: create with 201,
    400, 409 or 500; the list with 200 or 500; get and delete with 200, 404 or
    500; update with 200, 400, 404, 409 or 500; the health probe with 200 or
    500.  No handler lets an exception escape. *)
Theorem answers_are_declared (e : env) (book_id : Z) (data : pyval) :
  answers_within [201; 400; 409; 500] (BookList.post e data) /\
  answers_within [200; 500] BookList.get /\
  answers_within [200; 404; 500] (BookResource.get book_id) /\
  answers_within [200; 400; 404; 409; 500] (BookResource.put e book_id data) /\
  answers_within [200; 404; 500] (BookResource.delete book_id) /\
  answers_within [200; 500] health_check.
Proof.
  repeat split; intro d; try unfold_health; unfold_handler; handler_cases;
    within_leaf.
Qed.



(** X10: a conflict is never spurious.  When create answers 409 the payload
    passed the validator and a stored Book holds its isbn; when update answers
    409 the Book exists, the payload passed the validator and a Book with
    another id holds its isbn. *)
Theorem conflict_has_a_holder (e : env) (book_id : Z) (data : pyval) (d d' : db)
        (body : pyval) :
  (BookList.post e data d = (Ok (body, 409), d') ->
   validate_book_data e data false = Ok [] /\
   exists i holder,
     getitem data "isbn" = Ok i /\
     In holder (rows (session d)) /\ Book.isbn holder = i) /\
  (BookResource.put e book_id data d = (Ok (body, 409), d') ->
   validate_book_data e data false = Ok [] /\
   (exists book, In book (rows (session d)) /\ Book.id book = book_id) /\
   exists i holder,
     getitem data "isbn" = Ok i /\
     In holder (rows (session d)) /\ Book.isbn holder = i /\
     Book.id holder <> book_id).
Proof.
  split.
  - unfold_handler. handler_cases; intro H; inversion H; subst; clear H;
      match goal with
      | Hv : validate_book_data _ _ _ = Ok ?l, Hn : nonempty ?l = false |- _ =>
          destruct l; [ | discriminate Hn]
      end;
      (split; [reflexivity | ]);
      match goal with
      | Hq : find _ _ = Some ?h |- _ =>
          apply find_some in Hq as [Hin Heq]; apply pyval_eqb_eq in Heq;
          eexists _, h; repeat split; try reflexivity; eassumption
      end.
  - unfold_handler. handler_cases; intro H; inversion H; subst; clear H;
      match goal with
      | Hv : validate_book_data _ _ _ = Ok ?l, Hn : nonempty ?l = false |- _ =>
          destruct l; [ | discriminate Hn]
      end;
      (split; [reflexivity | ]);
      match goal with
      | Hb : find (fun b => Book.id b =? book_id) _ = Some ?t,
        Hq : find (fun b => pyval_eqb _ _ && _) _ = Some ?h |- _ =>
          apply find_some in Hb as [Hbin Hbid]; apply Z.eqb_eq in Hbid;
          apply find_some in Hq as [Hin Heq];
          apply andb_true_iff in Heq as [Heq Hne]; apply pyval_eqb_eq in Heq;
          apply negb_true_iff, Z.eqb_neq in Hne;
          split; [now exists t
                 | eexists _, h; repeat split; try reflexivity; eassumption]
      end.
Qed.

(** X11: create consults the store only for a payload that passes the
    validator: for any other payload it makes no round trip, so the answer
    does not depend on the health of the store. *)
Theorem create_validates_before_store (e : env) (data : pyval) (d d' : db)
        (r : result response) :
  BookList.post e data d = (r, d') ->
  validate_book_data e data false <> Ok [] ->
  faults d' = faults d /\ committed d' = committed d.
Proof.
  unfold_handler. handler_cases; intros H Hv; inversion H; subst;
    try (now split);
    match goal with
    | Hval : validate_book_data _ _ _ = Ok ?l, Hn : nonempty ?l = false |- _ =>
        destruct l; [now elim Hv | discriminate Hn]
    end.
Qed.

Lemma create_validates_before_store_witness :
  faults two_books_failing_commit = faults two_books_failing_commit /\
  committed two_books_failing_commit = committed two_books_failing_commit.
Proof.
  apply (create_validates_before_store env0 (PDict [("title", PStr "Emma")])
           two_books_failing_commit two_books_failing_commit
           (Ok (validation_failed [msg_author; msg_year_required; msg_isbn]))).
  - reflexivity.
  - discriminate.
Defined.

Lemma conflict_has_a_holder_witness :
  validate_book_data env0 dune false = Ok [] /\
  (exists book, In book (rows (session two_books)) /\ Book.id book = 2) /\
  exists i holder,
    getitem dune "isbn" = Ok i /\
    In holder (rows (session two_books)) /\ Book.isbn holder = i /\
    Book.id holder <> 2.
Proof.
  apply (proj2 (conflict_has_a_holder env0 2 dune two_books two_books
                  (error_body "Another book with this ISBN already exists"))).
  reflexivity.
Defined.

(** X12: update of a stored Book with a non-empty payload that fails
    validation answers 400 with the validator's list, in field order, and
    changes nothing; the isbn is not looked up. *)
Theorem update_rejects_invalid_payload (e : env) (book_id : Z) (data : pyval)
        (d : db) (book : Book.t) (errors : list string) :
  faults d = [] ->
  truthy data = true ->
  find (fun b => Book.id b =? book_id) (rows (session d)) = Some book ->
  validate_book_data e data false = Ok errors ->
  errors <> [] ->
  BookResource.put e book_id data d = (Ok (validation_failed errors), d) /\
  in_field_order e errors.
Proof.
  intros Hf Hdata Hfind Hv Hne.
  destruct (validate_needs_dict _ _ _ Hv) as [kvs ->].
  split; [ | now apply (validate_in_field_order e kvs)].
  unfold_handler. rewrite Hdata. cbn [negb]. rewrite Hf. cbn [session].
  rewrite Hfind, Hv. destruct errors; [now elim Hne | reflexivity].
Qed.

Lemma update_rejects_invalid_payload_witness :
  BookResource.put env0 2 (PDict [("title", PStr "Emma")]) two_books
  = (Ok (validation_failed [msg_author; msg_year_required; msg_isbn]), two_books) /\
  in_field_order env0 [msg_author; msg_year_required; msg_isbn].
Proof.
  apply (update_rejects_invalid_payload env0 2 (PDict [("title", PStr "Emma")])
           two_books emma_row).
  - reflexivity.
  - reflexivity.
  - reflexivity.
  - reflexivity.
  - discriminate.
Defined.

(** ** The validator beyond the claims *)

Lemma year_errors_infinite (e : env) (v : pyval) :
  is_infinite v = true -> year_errors e v = Raise OverflowError.
Proof.
  destruct v as [ | | | [ | neg | ] | | | ]; try discriminate. reflexivity.
Qed.

Lemma year_errors_raises (e : env) (v : pyval) (x : exn) :
  year_errors e v = Raise x -> x = OverflowError /\ is_infinite v = true.
Proof.
  unfold year_errors. destruct (is_none v); [discriminate | ].
  destruct (py_int e v) as [year | x'] eqn:Hint; [discriminate | ].
  apply py_int_raises in Hint as [-> | [-> | [-> Hv]]]; try discriminate.
  intro H. inversion H. now split.
Qed.

(** X13: on a JSON object in non-partial mode the validator raises in two
    cases only: [AttributeError] when the title or the author is true and not
    a string, and [OverflowError] when, behind strippable title and author,
    the year is an infinite float; in every other case it returns a list. *)
Theorem validator_raises_exactly (e : env) (kvs : list (string * pyval)) (x : exn) :
  validate_book_data e (PDict kvs) false = Raise x <->
  (x = AttributeError /\
   (strippable (field kvs "title") = false \/
    strippable (field kvs "author") = false)) \/
  (x = OverflowError /\
   strippable (field kvs "title") = true /\
   strippable (field kvs "author") = true /\
   is_infinite (field kvs "year") = true).
Proof.
  destruct (strippable (field kvs "title")) eqn:Ht.
  - destruct (strippable (field kvs "author")) eqn:Ha.
    + rewrite (validate_dict e kvs Ht Ha). split.
      * destruct (year_errors e (field kvs "year")) as [ye | x'] eqn:Hye;
          cbn [rbind]; [discriminate | ].
        intro H. inversion H; subst x'. right.
        apply year_errors_raises in Hye as [-> Hinf]. auto.
      * intros [[_ [H | H]] | (-> & _ & _ & Hinf)]; try discriminate H.
        now rewrite (year_errors_infinite e _ Hinf).
    + rewrite (author_not_strippable e kvs Ht Ha). split.
      * intro H. inversion H. left. auto.
      * intros [[-> _] | (_ & _ & H & _)]; [reflexivity | discriminate H].
  - rewrite (title_not_strippable e kvs Ht). split.
    + intro H. inversion H. left. auto.
    + intros [[-> _] | (_ & H & _)]; [reflexivity | discriminate H].
Qed.

(** X14: a year that is an infinite float, as the JSON number 1e999 decodes,
    is not reported as a validation error: behind strippable title and author
    the validator raises [OverflowError], which its [except] does not catch,
    and create answers 500. *)
Theorem infinite_year_is_internal_error (e : env) (kvs : list (string * pyval))
        (d : db) :
  strippable (field kvs "title") = true ->
  strippable (field kvs "author") = true ->
  is_infinite (field kvs "year") = true ->
  validate_book_data e (PDict kvs) false = Raise OverflowError /\
  BookList.post e (PDict kvs) d = (Ok internal_error, rolled_back d).
Proof.
  intros Ht Ha Hinf.
  assert (Hv : validate_book_data e (PDict kvs) false = Raise OverflowError).
  { rewrite (validate_dict e kvs Ht Ha). now rewrite (year_errors_infinite e _ Hinf). }
  split; [exact Hv | ].
  apply (post_raise e _ d OverflowError); [ | exact Hv].
  apply (field_truthy_dict kvs "year"). now destruct (field kvs "year") as [ | | | [ | | ] | | | ].
Qed.

Lemma infinite_year_is_internal_error_witness :
  validate_book_data env0 (PDict [("year", PFloat (Infinite false))]) false
  = Raise OverflowError /\
  BookList.post env0 (PDict [("year", PFloat (Infinite false))]) empty_db
  = (Ok internal_error, rolled_back empty_db).
Proof.
  apply (infinite_year_is_internal_error env0 [("year", PFloat (Infinite false))]
           empty_db); reflexivity.
Defined.

(** X15: a body that is not a JSON object is never validated field by
    field: when it is false (null, false, 0, the empty string, the empty
    array) create and update answer 400 with [No JSON data provided] without a
    round trip; when it is true (a non-empty array or string, a non-zero
    number, true) the validator raises [AttributeError] and create answers
    500. *)
Theorem non_object_body (e : env) (book_id : Z) (data : pyval) (d : db) :
  (forall kvs, data <> PDict kvs) ->
  (truthy data = false ->
   BookList.post e data d = (Ok (error_body "No JSON data provided", 400), d) /\
   BookResource.put e book_id data d
   = (Ok (error_body "No JSON data provided", 400), d)) /\
  (truthy data = true ->
   validate_book_data e data false = Raise AttributeError /\
   BookList.post e data d = (Ok internal_error, rolled_back d)).
Proof.
  intro Hnd. split; intro Hdata.
  - split; [now apply post_no_data | now apply put_no_data].
  - pose proof (validate_not_dict e data Hnd) as Hv.
    split; [exact Hv | now apply (post_raise e data d AttributeError)].
Qed.

Lemma non_object_body_witness :
  validate_book_data env0 (PList [PInt 1]) false = Raise AttributeError /\
  BookList.post env0 (PList [PInt 1]) empty_db = (Ok internal_error, rolled_back empty_db).
Proof.
  refine (proj2 (non_object_body env0 1 (PList [PInt 1]) empty_db _) eq_refl).
  intros kvs H. discriminate H.
Defined.

(** *** White space *)

Lemma lstrip_nil (cs : list ascii) :
  lstrip cs = [] <-> forallb is_space cs = true.
Proof.
  induction cs as [ | c t IH]; simpl; [tauto | ].
  destruct (is_space c); simpl; [exact IH | ]. split; discriminate.
Qed.

Lemma lstrip_keeps_nonspace (cs : list ascii) :
  forallb is_space cs = false -> forallb is_space (lstrip cs) = false.
Proof.
  induction cs as [ | c t IH]; simpl; [discriminate | ].
  destruct (is_space c) eqn:Hc; simpl; [exact IH | ].
  intros _. now rewrite Hc.
Qed.

Lemma forallb_rev (p : ascii -> bool) (cs : list ascii) :
  forallb p (rev cs) = forallb p cs.
Proof.
  induction cs as [ | c t IH]; simpl; [reflexivity | ].
  rewrite forallb_app, IH. simpl. rewrite andb_true_r. apply andb_comm.
Qed.

Lemma strip_chars_nil (cs : list ascii) :
  strip_chars cs = [] <-> forallb is_space cs = true.
Proof.
  unfold strip_chars. split.
  - intro H. destruct (forallb is_space cs) eqn:Hall; [reflexivity | ].
    apply lstrip_keeps_nonspace in Hall. rewrite <- forallb_rev in Hall.
    apply lstrip_keeps_nonspace in Hall. rewrite <- forallb_rev in Hall.
    rewrite H in Hall. discriminate Hall.
  - intro H. apply lstrip_nil in H. now rewrite H.
Qed.

Lemma length_string_of_list_ascii (cs : list ascii) :
  String.length (string_of_list_ascii cs) = List.length cs.
Proof. induction cs as [ | c t IH]; simpl; [reflexivity | now rewrite IH]. Qed.

Lemma strip_empty_iff (s : string) :
  (String.length (strip s) =? 0)%nat = all_space s.
Proof.
  unfold strip, all_space. rewrite length_string_of_list_ascii.
  destruct (forallb is_space (list_ascii_of_string s)) eqn:Hall.
  - apply strip_chars_nil in Hall. now rewrite Hall.
  - destruct (strip_chars (list_ascii_of_string s)) eqn:Hs; [ | reflexivity].
    assert (H : strip_chars (list_ascii_of_string s) = []) by exact Hs.
    apply strip_chars_nil in H. congruence.
Qed.

(** X16: for a title or an author that is a string, the text rule reports
    the field as required exactly when the string holds white space only (the
    empty string included): it appends the message then, and nothing when some
    character is not white space. *)
Theorem blank_text_is_required (kvs : list (string * pyval)) (s : string)
        (errors : list string) :
  (assoc "title" kvs = Some (PStr s) ->
   check_title (PDict kvs) false errors
   = Ok (if all_space s then errors ++ [msg_title] else errors)) /\
  (assoc "author" kvs = Some (PStr s) ->
   check_author (PDict kvs) false errors
   = Ok (if all_space s then errors ++ [msg_author] else errors)).
Proof.
  split; intro H; apply assoc_field in H;
    [rewrite check_title_dict | rewrite check_author_dict];
    rewrite H; cbn [truthy]; rewrite strip_empty_iff;
    destruct s as [ | c s']; try reflexivity;
    cbn [String.length Nat.eqb negb]; reflexivity.
Qed.

Lemma blank_text_is_required_witness :
  check_title (PDict [("title", PStr "  ")]) false []
  = Ok (if all_space "  " then [] ++ [msg_title] else []).
Proof.
  exact (proj1 (blank_text_is_required [("title", PStr "  ")] "  " []) eq_refl).
Defined.

(** *** Partial mode *)

Lemma has_key_field (kvs : list (string * pyval)) (k : string) :
  has_key kvs k = false -> field kvs k = PNone.
Proof. unfold has_key, field. now destruct (assoc k kvs). Qed.

Lemma check_title_partial (kvs : list (string * pyval)) (errors : list string) :
  check_title (PDict kvs) true errors =
  if has_key kvs "title" then check_title (PDict kvs) false errors else Ok errors.
Proof.
  unfold check_title, field_checked, py_contains, has_key, rbind. cbn [negb].
  now destruct (assoc "title" kvs).
Qed.

Lemma check_author_partial (kvs : list (string * pyval)) (errors : list string) :
  check_author (PDict kvs) true errors =
  if has_key kvs "author" then check_author (PDict kvs) false errors else Ok errors.
Proof.
  unfold check_author, field_checked, py_contains, has_key, rbind. cbn [negb].
  now destruct (assoc "author" kvs).
Qed.

Lemma check_year_partial (e : env) (kvs : list (string * pyval)) (errors : list string) :
  check_year e (PDict kvs) true errors =
  if is_none (field kvs "year") then Ok errors
  else check_year e (PDict kvs) false errors.
Proof.
  unfold check_year, field_checked, py_contains, dict_get, field, rbind. cbn [negb].
  destruct (assoc "year" kvs) as [v | ]; [ | reflexivity].
  now destruct (is_none v).
Qed.

Lemma check_isbn_partial (kvs : list (string * pyval)) (errors : list string) :
  check_isbn (PDict kvs) true errors = Ok errors.
Proof.
  unfold check_isbn, field_checked, py_contains, dict_get, rbind. cbn [negb].
  destruct (assoc "isbn" kvs) as [v | ]; [ | reflexivity].
  now rewrite andb_false_r.
Qed.

Lemma check_text_strippable (msg : string) (v : pyval) (errors : list string) :
  strippable v = true ->
  (if negb (truthy v) then Ok (errors ++ [msg])
   else match v with
        | PStr s => Ok (if (String.length (strip s) =? 0)%nat
                        then errors ++ [msg] else errors)
        | _ => Raise AttributeError
        end) = Ok (errors ++ text_errors msg v).
Proof.
  intro Hv. unfold strippable in Hv. unfold text_errors.
  destruct (truthy v) eqn:Htv; simpl; [ | reflexivity].
  destruct v; simpl in *; try discriminate Hv.
  destruct (String.length (strip s) =? 0)%nat; simpl;
    [reflexivity | now rewrite app_nil_r].
Qed.

Lemma check_text_not_strippable (msg : string) (v : pyval) (errors : list string) :
  strippable v = false ->
  (if negb (truthy v) then Ok (errors ++ [msg])
   else match v with
        | PStr s => Ok (if (String.length (strip s) =? 0)%nat
                        then errors ++ [msg] else errors)
        | _ => Raise AttributeError
        end) = Raise AttributeError.
Proof.
  intro Hv. unfold strippable in Hv. apply orb_false_iff in Hv as [Ht Hs].
  rewrite Ht. cbn [negb]. now destruct v.
Qed.

(** The messages of partial mode, rule by rule. *)
Lemma validate_partial_dict (e : env) (kvs : list (string * pyval)) :
  strippable (field kvs "title") = true ->
  strippable (field kvs "author") = true ->
  validate_book_data e (PDict kvs) true =
  rbind (if is_none (field kvs "year") then Ok []
         else year_errors e (field kvs "year"))
        (fun ye => Ok ((if has_key kvs "title"
                        then text_errors msg_title (field kvs "title") else [])
                       ++ (if has_key kvs "author"
                           then text_errors msg_author (field kvs "author") else [])
                       ++ ye)).
Proof.
  intros Ht Ha. unfold validate_book_data.
  rewrite check_title_partial, check_title_dict, (check_text_strippable _ _ _ Ht).
  replace (if has_key kvs "title"
           then Ok ([] ++ text_errors msg_title (field kvs "title")) else Ok [])
    with (Ok (if has_key kvs "title"
              then text_errors msg_title (field kvs "title") else []))
    by now destruct (has_key kvs "title").
  cbn [rbind].
  rewrite check_author_partial, check_author_dict, (check_text_strippable _ _ _ Ha).
  match goal with
  | |- context [if has_key kvs "author" then Ok (?acc ++ ?t) else Ok ?acc] =>
      replace (if has_key kvs "author" then Ok (acc ++ t) else Ok acc)
        with (Ok (acc ++ if has_key kvs "author" then t else []))
        by (destruct (has_key kvs "author"); now rewrite ?app_nil_r)
  end.
  cbn [rbind]. rewrite check_year_partial.
  destruct (is_none (field kvs "year")) eqn:Hn; cbn [rbind].
  - rewrite check_isbn_partial. now rewrite app_nil_r.
  - destruct (year_errors e (field kvs "year")) as [ye | x] eqn:Hye; cbn [rbind].
    + rewrite (year_errors_of_check e kvs _ ye Hye). cbn [rbind].
      rewrite check_isbn_partial. now rewrite <- app_assoc.
    + rewrite check_year_dict, Hn. unfold year_errors in Hye. rewrite Hn in Hye.
      destruct (py_int e (field kvs "year")) as [year | x']; [discriminate Hye | ].
      destruct x'; try discriminate Hye; now inversion Hye.
Qed.

Lemma validate_partial_raises_title (e : env) (kvs : list (string * pyval)) :
  strippable (field kvs "title") = false ->
  validate_book_data e (PDict kvs) true = Raise AttributeError.
Proof.
  intro Ht. unfold validate_book_data.
  rewrite check_title_partial, check_title_dict, (check_text_not_strippable _ _ _ Ht).
  destruct (has_key kvs "title") eqn:Hk; [reflexivity | ].
  apply has_key_field in Hk. rewrite Hk in Ht. discriminate Ht.
Qed.

Lemma validate_partial_raises_author (e : env) (kvs : list (string * pyval)) :
  strippable (field kvs "title") = true ->
  strippable (field kvs "author") = false ->
  validate_book_data e (PDict kvs) true = Raise AttributeError.
Proof.
  intros Ht Ha. unfold validate_book_data.
  rewrite check_title_partial, check_title_dict, (check_text_strippable _ _ _ Ht).
  assert (Hk : has_key kvs "author" = true).
  { destruct (has_key kvs "author") eqn:Hk; [reflexivity | ].
    apply has_key_field in Hk. rewrite Hk in Ha. discriminate Ha. }
  destruct (has_key kvs "title"); cbn [rbind];
    now rewrite check_author_partial, Hk, check_author_dict,
      (check_text_not_strippable _ _ _ Ha).
Qed.

(** X17: on a JSON object, partial mode is the lenient form of full mode.
    It raises exactly when full mode raises, with the same exception; when it
    returns, full mode returns too and every message of partial mode is one of
    full mode's; it never reports "ISBN is required" nor "Year is required";
    and an object with none of title, author and year passes it. *)
Theorem partial_mode_is_lenient (e : env) (kvs : list (string * pyval)) :
  (forall x, validate_book_data e (PDict kvs) true = Raise x <->
             validate_book_data e (PDict kvs) false = Raise x) /\
  (forall errors,
      validate_book_data e (PDict kvs) true = Ok errors ->
      ~ In msg_isbn errors /\ ~ In msg_year_required errors /\
      exists full, validate_book_data e (PDict kvs) false = Ok full /\
                   incl errors full) /\
  (has_key kvs "title" = false -> has_key kvs "author" = false ->
   has_key kvs "year" = false ->
   validate_book_data e (PDict kvs) true = Ok []).
Proof.
  destruct (strippable (field kvs "title")) eqn:Ht.
  2: { rewrite (validate_partial_raises_title e kvs Ht),
         (title_not_strippable e kvs Ht).
       repeat split; try discriminate; try tauto.
       intro Hk. apply has_key_field in Hk. rewrite Hk in Ht. discriminate Ht. }
  destruct (strippable (field kvs "author")) eqn:Ha.
  2: { rewrite (validate_partial_raises_author e kvs Ht Ha),
         (author_not_strippable e kvs Ht Ha).
       repeat split; try discriminate; try tauto.
       intros _ Hk. apply has_key_field in Hk. rewrite Hk in Ha. discriminate Ha. }
  rewrite (validate_partial_dict e kvs Ht Ha), (validate_dict e kvs Ht Ha).
  split; [ | split].
  - intro x. unfold year_errors.
    destruct (is_none (field kvs "year")); cbn [rbind]; [split; discriminate | ].
    match goal with
    | |- context [rbind ?y _] => destruct y; cbn [rbind]
    end; split; intro H; try discriminate H; exact H.
  - intros errors H.
    assert (Hye : exists ye,
               (if is_none (field kvs "year") then Ok []
                else year_errors e (field kvs "year")) = Ok ye /\
               errors = (if has_key kvs "title"
                         then text_errors msg_title (field kvs "title") else [])
                        ++ (if has_key kvs "author"
                            then text_errors msg_author (field kvs "author") else [])
                        ++ ye).
    { match type of H with
      | rbind ?y _ = _ => destruct y as [ye | x]; cbn [rbind] in H;
                          [ | discriminate H]
      end.
      exists ye. split; [reflexivity | now inversion H]. }
    clear H. destruct Hye as (ye & Hye & ->).
    assert (Hpt : forall k msg,
               incl (if has_key kvs k then text_errors msg (field kvs k) else [])
                    (text_errors msg (field kvs k)) /\
               ((if has_key kvs k then text_errors msg (field kvs k) else []) = []
                \/ (if has_key kvs k then text_errors msg (field kvs k) else [])
                   = [msg])).
    { intros k msg. destruct (has_key kvs k).
      - split; [apply incl_refl | apply text_errors_cases].
      - split; [intros m [] | now left]. }
    destruct (Hpt "title" msg_title) as [Hti Htc].
    destruct (Hpt "author" msg_author) as [Hai Hac].
    assert (Hyc : (ye = [] \/ ye = [msg_year_integer] \/ ye = [msg_year_range e]) /\
                  exists fy, year_errors e (field kvs "year") = Ok fy /\ incl ye fy).
    { destruct (is_none (field kvs "year")) eqn:Hn.
      - inversion Hye; subst ye. split; [now left | ].
        unfold year_errors. rewrite Hn. eexists. split; [reflexivity | intros m []].
      - split; [ | exists ye; split; [exact Hye | apply incl_refl]].
        unfold year_errors in Hye. rewrite Hn in Hye.
        destruct (py_int e (field kvs "year")) as [year | x].
        + destruct ((0 <=? year) && (year <=? current_year e));
            inversion Hye; auto.
        + destruct x; inversion Hye; auto. }
    destruct Hyc as [Hyc (fy & Hfy & Hyi)].
    split; [ | split].
    + rewrite !in_app_iff. intros [H | [H | H]].
      * destruct Htc as [E | E]; rewrite E in H; simpl in H;
          [tauto | destruct H as [H | []]; discriminate H].
      * destruct Hac as [E | E]; rewrite E in H; simpl in H;
          [tauto | destruct H as [H | []]; discriminate H].
      * destruct Hyc as [E | [E | E]]; rewrite E in H; simpl in H;
          try tauto; destruct H as [H | []]; discriminate H.
    + rewrite !in_app_iff. intros [H | [H | H]].
      * destruct Htc as [E | E]; rewrite E in H; simpl in H;
          [tauto | destruct H as [H | []]; discriminate H].
      * destruct Hac as [E | E]; rewrite E in H; simpl in H;
          [tauto | destruct H as [H | []]; discriminate H].
      * destruct Hyc as [E | [E | E]]; rewrite E in H; simpl in H;
          try tauto; destruct H as [H | []]; discriminate H.
    + rewrite Hfy. cbn [rbind]. eexists. split; [reflexivity | ].
      intros m Hm. rewrite !in_app_iff in Hm. rewrite !in_app_iff.
      destruct Hm as [Hm | [Hm | Hm]]; auto.
  - intros Hkt Hka Hky. rewrite Hkt, Hka.
    unfold has_key in Hky. unfold field.
    destruct (assoc "year" kvs); [discriminate Hky | reflexivity].
Qed.

(** ** Invariants of the reachable states *)

Lemma same_key_same_row (l : list Book.t) (b b' : Book.t) :
  NoDup (map Book.id l) -> In b l -> In b' l -> Book.id b' = Book.id b -> b' = b.
Proof.
  intros Hnd Hb Hb' Hid.
  pose proof (find_by_key l b Hnd Hb) as H1.
  pose proof (find_by_key l b' Hnd Hb') as H2.
  rewrite Hid in H2. congruence.
Qed.

(** X19: no request changes the created_at of a Book: a row that has the
    primary key of a stored Book after any request has that Book's
    created_at. *)
Theorem created_at_is_immutable (r : request) (d : db) (b b' : Book.t) :
  wf d ->
  In b (rows (committed d)) ->
  In b' (rows (committed (snd (handle r d)))) ->
  Book.id b' = Book.id b ->
  Book.created_at b' = Book.created_at b.
Proof.
  intro Hwf. pose proof (wf_clean d Hwf) as Hclean. revert b b'.
  assert (Hsame : forall b b', In b (rows (committed d)) ->
                               In b' (rows (committed d)) ->
                               Book.id b' = Book.id b ->
                               Book.created_at b' = Book.created_at b).
  { intros b b' Hb Hb' Hid.
    now rewrite (same_key_same_row _ _ _ (wf_keys d Hwf) Hb Hb' Hid). }
  destruct r; simpl; unfold_handler; handler_cases; cbn [snd committed rows];
    intros bk bk';
    try (match goal with H : _ :: _ = [] |- _ => discriminate H end);
    try (now apply Hsame);
    rewrite ?Hclean in *; intros Hbk Hbk' Hid.
  all: try (apply in_app_or in Hbk' as [Hbk' | [<- | []]];
            [now apply Hsame
            | cbn [Book.id] in Hid; pose proof (wf_below d Hwf bk Hbk); lia]).
  all: try (apply filter_In in Hbk' as [Hbk' _]; now apply Hsame).
  all: cbn [Book.id Book.set_title Book.set_author Book.set_year Book.set_isbn] in Hbk';
    rewrite !map_replace_twice in Hbk' by reflexivity;
    apply in_replaced in Hbk' as [-> | [Hbk' _]]; [ | now apply Hsame];
    cbn [Book.id Book.created_at] in Hid |- *;
    match goal with
    | Hfound : find (fun r => Book.id r =? _) _ = Some ?t |- _ =>
        apply find_some in Hfound as [Hin _];
        now rewrite (same_key_same_row _ _ _ (wf_keys d Hwf) Hbk Hin Hid)
    end.
Qed.

Lemma created_at_is_immutable_witness :
  Book.created_at (updated emma_row emma_revised) = Book.created_at emma_row.
Proof.
  apply (created_at_is_immutable (Update env0 2 (PDict emma_revised)) two_books).
  - exact wf_two_books.
  - simpl. right. now left.
  - simpl. right. now left.
  - reflexivity.
Defined.

Lemma valid_fields (e : env) (data t a y i : pyval) (k : Z) (c : datetime) :
  validate_book_data e data false = Ok [] ->
  getitem data "title" = Ok t ->
  getitem data "author" = Ok a ->
  getitem data "year" = Ok y ->
  getitem data "isbn" = Ok i ->
  stored_ok (Book.mk k t a y i c).
Proof.
  intros Hv Ht Ha Hy Hi.
  destruct (validate_needs_dict _ _ _ Hv) as [kvs ->].
  apply getitem_field in Ht, Ha, Hy, Hi. subst.
  pose proof (validate_valid_inv e kvs Hv) as (_ & Ht & _ & Ha & (z & Hz & Hr) & Hi).
  unfold stored_ok. cbn [Book.title Book.author Book.year Book.isbn].
  repeat split; try assumption. now exists e, z.
Qed.

Lemma handle_keeps_valid (r : request) (d : db) :
  wf d ->
  (forall b, In b (rows (committed d)) -> stored_ok b) ->
  forall b, In b (rows (committed (snd (handle r d)))) -> stored_ok b.
Proof.
  intros Hwf Hall. pose proof (wf_clean d Hwf) as Hclean.
  destruct r; simpl; unfold_handler; handler_cases; cbn [snd committed rows];
    intros bk;
    try (match goal with H : _ :: _ = [] |- _ => discriminate H end);
    try (now apply Hall);
    rewrite ?Hclean in *; intro Hbk;
    try (match goal with
         | Hv : validate_book_data _ _ _ = Ok ?l, Hn : nonempty ?l = false |- _ =>
             destruct l; [ | discriminate Hn]
         end).
  all: try (apply in_app_or in Hbk as [Hbk | [<- | []]];
            [now apply Hall | eapply valid_fields; eassumption]).
  all: try (apply filter_In in Hbk as [Hbk _]; now apply Hall).
  all: cbn [Book.id Book.set_title Book.set_author Book.set_year Book.set_isbn] in Hbk;
    rewrite !map_replace_twice in Hbk by reflexivity;
    apply in_replaced in Hbk as [-> | [Hbk _]]; [ | now apply Hall];
    cbn [Book.id Book.set_title Book.set_author Book.set_year Book.set_isbn
         Book.title Book.author Book.year Book.isbn Book.created_at];
    eapply valid_fields; eassumption.
Qed.

Lemma reachable_wf_valid (d : db) :
  reachable d -> wf d /\ forall b, In b (rows (committed d)) -> stored_ok b.
Proof.
  induction 1 as [n script | d r _ [IHwf IHv] | d script _ [IHwf IHv]].
  - split; [ | intros b []].
    apply table_ok_wf. repeat split; simpl; try contradiction. constructor.
  - split; [now apply handle_keeps_wf | now apply handle_keeps_valid].
  - split; [now apply wf_script | exact IHv].
Qed.



(** X18: every reachable state is consistent: between two requests the
    session holds no pending change, every primary key is below the sequence,
    no two rows share a primary key, and no two rows share an isbn. *)
Theorem reachable_states_are_consistent (d : db) :
  reachable d ->
  session d = committed d /\
  (forall b, In b (rows (committed d)) -> Book.id b < next_id (committed d)) /\
  NoDup (map Book.id (rows (committed d))) /\
  (forall b b', In b (rows (committed d)) -> In b' (rows (committed d)) ->
                Book.isbn b = Book.isbn b' -> b = b').
Proof.
  intro Hr. destruct (proj1 (reachable_wf_valid d Hr)) as [H0 H1 H2 H3].
  now repeat split.
Qed.

Lemma reachable_states_are_consistent_witness :
  session two_books = committed two_books /\
  (forall b, In b (rows (committed two_books)) ->
             Book.id b < next_id (committed two_books)) /\
  NoDup (map Book.id (rows (committed two_books))) /\
  (forall b b', In b (rows (committed two_books)) ->
                In b' (rows (committed two_books)) ->
                Book.isbn b = Book.isbn b' -> b = b').
Proof.
  apply (reachable_states_are_consistent two_books).
  apply (reach_handle one_book (Create env0 emma)).
  apply (reach_handle empty_db (Create env0 dune)).
  apply (reach_empty 1 []).
Defined.

(** ** What the validator accepts *)

(** X21: on a JSON object in non-partial mode the validator returns the
    empty list exactly when title and author are strings with a character that
    is not white space, [int()] converts the year to an integer between 0 and
    the current year, and the isbn is true. *)
Theorem validator_accepts_exactly (e : env) (kvs : list (string * pyval)) :
  validate_book_data e (PDict kvs) false = Ok [] <->
  nonblank (field kvs "title") = true /\
  nonblank (field kvs "author") = true /\
  (exists z, py_int e (field kvs "year") = Ok z /\ 0 <= z <= current_year e) /\
  truthy (field kvs "isbn") = true.
Proof.
  split.
  - intro H. apply validate_valid_inv in H as (_ & Ht & _ & Ha & Hy & Hi).
    now repeat split.
  - intros (Ht & Ha & (z & Hz & Hr) & Hi). now apply (validate_valid e kvs z).
Qed.

Lemma validate_same_fields (e : env) (kvs kvs' : list (string * pyval)) :
  field kvs "title" = field kvs' "title" ->
  field kvs "author" = field kvs' "author" ->
  field kvs "year" = field kvs' "year" ->
  field kvs "isbn" = field kvs' "isbn" ->
  validate_book_data e (PDict kvs) false = validate_book_data e (PDict kvs') false.
Proof.
  intros Ht Ha Hy Hi. unfold validate_book_data.
  rewrite !check_title_dict, Ht.
  match goal with
  | |- rbind ?r _ = rbind ?r _ => destruct r as [errors | x]; [ | reflexivity]
  end.
  cbn [rbind]. rewrite !check_author_dict, Ha.
  match goal with
  | |- rbind ?r _ = rbind ?r _ => destruct r as [errors' | x]; [ | reflexivity]
  end.
  cbn [rbind]. rewrite !check_year_dict, Hy.
  match goal with
  | |- rbind ?r _ = rbind ?r _ => destruct r as [errors'' | x]; [ | reflexivity]
  end.
  cbn [rbind]. now rewrite !check_isbn_dict, Hi.
Qed.

(** X22: keys other than title, author, year and isbn play no part: two
    non-empty JSON objects with the same values of these four fields get the
    same list from the validator and the same answer and state from create. *)
Theorem other_keys_are_ignored (e : env) (kvs kvs' : list (string * pyval)) (d : db) :
  kvs <> [] ->
  kvs' <> [] ->
  field kvs "title" = field kvs' "title" ->
  field kvs "author" = field kvs' "author" ->
  field kvs "year" = field kvs' "year" ->
  field kvs "isbn" = field kvs' "isbn" ->
  validate_book_data e (PDict kvs) false = validate_book_data e (PDict kvs') false /\
  BookList.post e (PDict kvs) d = BookList.post e (PDict kvs') d.
Proof.
  intros Hne Hne' Ht Ha Hy Hi.
  pose proof (validate_same_fields e kvs kvs' Ht Ha Hy Hi) as Hv.
  split; [exact Hv | ].
  assert (Hd : truthy (PDict kvs) = true) by (destruct kvs; [now elim Hne | reflexivity]).
  assert (Hd' : truthy (PDict kvs') = true) by (destruct kvs'; [now elim Hne' | reflexivity]).
  destruct (validate_book_data e (PDict kvs') false) as [[ | m errors] | x] eqn:Hv'.
  - pose proof (validate_valid_inv e kvs Hv) as (Ht1 & _ & Ha1 & _ & (z & Hz & _) & Hi1).
    pose proof (validate_valid_inv e kvs' Hv') as (Ht2 & _ & Ha2 & _ & (z' & Hz' & _) & Hi2).
    assert (Hy1 : is_none (field kvs "year") = false)
      by (destruct (field kvs "year"); try reflexivity; discriminate Hz).
    assert (Hy2 : is_none (field kvs' "year") = false)
      by (destruct (field kvs' "year"); try reflexivity; discriminate Hz').
    unfold_handler. rewrite Hd, Hd', Hv, Hv'. cbn [negb nonempty].
    rewrite (field_truthy kvs "isbn" Hi1), (field_truthy kvs' "isbn" Hi2),
      (field_truthy kvs "title" Ht1), (field_truthy kvs' "title" Ht2),
      (field_truthy kvs "author" Ha1), (field_truthy kvs' "author" Ha2),
      (field_not_none kvs "year" Hy1), (field_not_none kvs' "year" Hy2).
    now rewrite Ht, Ha, Hy, Hi.
  - rewrite (post_invalid e _ d (m :: errors) Hd Hv) by discriminate.
    now rewrite (post_invalid e _ d (m :: errors) Hd' Hv') by discriminate.
  - rewrite (post_raise e _ d x Hd Hv). now rewrite (post_raise e _ d x Hd' Hv').
Qed.

Lemma other_keys_are_ignored_witness :
  validate_book_data env0 (PDict (("pages", PInt 412) :: emma_revised)) false
  = validate_book_data env0 (PDict emma_revised) false /\
  BookList.post env0 (PDict (("pages", PInt 412) :: emma_revised)) two_books
  = BookList.post env0 (PDict emma_revised) two_books.
Proof.
  apply (other_keys_are_ignored env0 (("pages", PInt 412) :: emma_revised)
           emma_revised two_books); try reflexivity; discriminate.
Defined.
